(** * react-native-supabase: the configuration validator and the client holder

    A shallow embedding of
      - [src/domain/value-objects/SupabaseConfig.ts]  (configuration, [validateSupabaseConfig]),
      - [src/domain/errors/SupabaseError.ts]          (the error classes),
      - [src/infrastructure/config/SupabaseClient.ts] (the [SupabaseClientSingleton] holder),
    followed by the properties of the specification, each settled on the
    embedding.

    JavaScript data is kept as the runtime has it: strings are sequences of
    UTF-16 code units, a value is truthy or falsy, a call either returns or
    throws.  What the package imports from elsewhere (the [URL] class, the
    SDK's [createClient], the client's [auth.signOut], [AsyncStorage]) is a
    component of a [Platform] record, so every property is proved for all
    behaviours of these collaborators unless it says otherwise. *)

From Stdlib Require Import ZArith NArith QArith Qround String Ascii Bool List Lia.
From stdpp Require Import base option list gmap fin_maps.

Local Open Scope bool_scope.

(** ** JavaScript strings *)

(** A string is its list of UTF-16 code units. *)
Definition jsstring : Type := list N.

(** The code units of an ASCII literal of the source. *)
Definition JS (s : string) : jsstring :=
  List.map N_of_ascii (list_ascii_of_string s).

Definition jsstring_eqb (s t : jsstring) : bool := bool_decide (s = t).

(** [s.startsWith(t)] *)
Fixpoint startsWith (s t : jsstring) : bool :=
  match t, s with
  | [], _ => true
  | _ :: _, [] => false
  | b :: t', a :: s' => N.eqb a b && startsWith s' t'
  end.

(** [s.includes(t)]: [t] occurs in [s] as a substring. *)
Fixpoint includes (s t : jsstring) : bool :=
  startsWith s t ||
  match s with
  | [] => false
  | _ :: s' => includes s' t
  end.

(** ECMAScript WhiteSpace and LineTerminator code points, the ones
    [String.prototype.trim] strips. *)
Definition isWhiteSpace (c : N) : bool :=
  let c := Z.of_N c in
  (Z.leb 9 c && Z.leb c 13) || Z.eqb c 32 || Z.eqb c 160 || Z.eqb c 5760 ||
  (Z.leb 8192 c && Z.leb c 8202) || Z.eqb c 8232 || Z.eqb c 8233 ||
  Z.eqb c 8239 || Z.eqb c 8287 || Z.eqb c 12288 || Z.eqb c 65279.

Fixpoint trimStart (s : jsstring) : jsstring :=
  match s with
  | c :: s' => if isWhiteSpace c then trimStart s' else s
  | [] => []
  end.

Definition trimEnd (s : jsstring) : jsstring := rev (trimStart (rev s)).

(** [s.trim()] *)
Definition trim (s : jsstring) : jsstring := trimEnd (trimStart s).

(** ** JavaScript values *)

(** A number: not-a-number, an infinity, or a finite value, kept as the
    rational it denotes (both zeros are the rational zero).  The package
    only tests numbers for truthiness, where [NaN] and zero are falsy. *)
Inductive jsnumber : Type :=
| NaN
| Infinity (negative : bool)
| Num (q : Q).

(** The values a property typed [string] can hold at run time once the type
    checker is out of the picture; the validator tests for them. *)
Inductive jsval : Type :=
| JUndefined
| JNull
| JBool (b : bool)
| JNumber (n : jsnumber)
| JString (s : jsstring)
| JObject (ref : nat).

Inductive jstype : Type :=
| TUndefined | TObject | TBoolean | TNumber | TString.

(** [typeof v] *)
Definition typeof (v : jsval) : jstype :=
  match v with
  | JUndefined => TUndefined
  | JNull => TObject
  | JBool _ => TBoolean
  | JNumber _ => TNumber
  | JString _ => TString
  | JObject _ => TObject
  end.

Definition jstype_eqb (a b : jstype) : bool :=
  match a, b with
  | TUndefined, TUndefined | TObject, TObject | TBoolean, TBoolean
  | TNumber, TNumber | TString, TString => true
  | _, _ => false
  end.

Definition truthy_number (n : jsnumber) : bool :=
  match n with
  | NaN => false
  | Infinity _ => true
  | Num q => negb (Qeq_bool q 0)
  end.

Definition truthy_string (s : jsstring) : bool :=
  match s with
  | [] => false
  | _ :: _ => true
  end.

(** ToBoolean *)
Definition truthy (v : jsval) : bool :=
  match v with
  | JUndefined | JNull => false
  | JBool b => b
  | JNumber n => truthy_number n
  | JString s => truthy_string s
  | JObject _ => true
  end.

(** The string held by a value whose [typeof] is ["string"]. *)
Definition string_value (v : jsval) : jsstring :=
  match v with
  | JString s => s
  | _ => []
  end.

(** [o || d] for [o : string | null | undefined]: the default replaces an
    absent and an empty string alike. *)
Definition string_or (o : option jsstring) (d : jsstring) : jsstring :=
  match o with
  | Some s => if truthy_string s then s else d
  | None => d
  end.

(** [o || d] for [o : number | undefined] *)
Definition number_or (o : option jsnumber) (d : jsnumber) : jsnumber :=
  match o with
  | Some n => if truthy_number n then n else d
  | None => d
  end.

(** [o || d] for [o : object | undefined]: every object is truthy. *)
Definition object_or {A : Type} (o : option A) (d : A) : A :=
  match o with
  | Some a => a
  | None => d
  end.

(** [o ?? d] *)
Definition nullish_or {A : Type} (o : option A) (d : A) : A :=
  match o with
  | Some a => a
  | None => d
  end.

(** ** Exceptions *)

(** An [Error] object.  [code] and [originalError] are the two properties
    [SupabaseError] adds; a plain [Error] has neither. *)
Record ErrorObject : Type := mkError {
  name : jsstring;
  message : jsstring;
  code : option jsstring;
  originalError : option jsval
}.

(** What a [throw] can carry: an [Error] instance or anything else. *)
Inductive thrown : Type :=
| ThrownError (e : ErrorObject)
| ThrownValue (v : jsval).

(** The result of a call. *)
Inductive outcome (A : Type) : Type :=
| Return (a : A)
| Throw (e : thrown).

Arguments Return {A} a.
Arguments Throw {A} e.

(** [new Error(msg)] *)
Definition Error (msg : jsstring) : ErrorObject :=
  {| name := JS "Error"; message := msg; code := None; originalError := None |}.

(** [class SupabaseError extends Error] *)
Definition SupabaseError (msg : jsstring) (code : option jsstring)
    (originalError : option jsval) : ErrorObject :=
  {| name := JS "SupabaseError"; message := msg;
     code := code; originalError := originalError |}.

Definition set_name (e : ErrorObject) (n : jsstring) : ErrorObject :=
  {| name := n; message := message e; code := code e;
     originalError := originalError e |}.

(** [class SupabaseInitializationError extends SupabaseError] *)
Definition SupabaseInitializationError (msg : jsstring)
    (originalError : option jsval) : ErrorObject :=
  set_name (SupabaseError msg (Some (JS "INITIALIZATION_ERROR")) originalError)
           (JS "SupabaseInitializationError").

(** [class SupabaseConfigurationError extends SupabaseError] *)
Definition SupabaseConfigurationError (msg : jsstring)
    (originalError : option jsval) : ErrorObject :=
  set_name (SupabaseError msg (Some (JS "CONFIGURATION_ERROR")) originalError)
           (JS "SupabaseConfigurationError").

(** ** Configuration *)

(** The [storage] option is an object of three functions; the package hands
    it to the SDK and never calls it, so a reference stands for it.  The
    default is the object literal that forwards to [AsyncStorage]. *)
Inductive StorageAdapter : Type :=
| CustomStorage (ref : nat)
| AsyncStorageAdapter.

(** [interface SupabaseConfig].  [url] and [anonKey] are run-time values,
    since the validator checks their type; an optional property is [None]
    when it is absent. *)
Record SupabaseConfig : Type := mkConfig {
  url : jsval;
  anonKey : jsval;
  storage : option StorageAdapter;
  schema : option jsstring;
  realtimeHeartbeatIntervalMs : option jsnumber;
  autoRefreshToken : option bool;
  persistSession : option bool;
  detectSessionInUrl : option bool
}.

(** The validator's result, [{ valid: boolean; error?: string }]. *)
Record ValidationResult : Type := mkValidation {
  valid : bool;
  error : option jsstring
}.

Definition invalid (msg : string) : ValidationResult :=
  {| valid := false; error := Some (JS msg) |}.

Definition is_http_protocol (p : jsstring) : bool :=
  jsstring_eqb p (JS "http:") || jsstring_eqb p (JS "https:").

Section Validator.

(** [new URL(s).protocol], or [None] when that expression throws.  The class
    comes from the host platform. *)
Variable URL_protocol : jsstring -> option jsstring.

(** [validateSupabaseConfig] *)
Definition validateSupabaseConfig (config : SupabaseConfig) : ValidationResult :=
  if negb (truthy (url config)) || negb (jstype_eqb (typeof (url config)) TString)
  then invalid "Supabase URL is required and must be a string"
  else if negb (truthy (anonKey config))
          || negb (jstype_eqb (typeof (anonKey config)) TString)
  then invalid "Supabase anon key is required and must be a string"
  else
    let u := string_value (url config) in
    let k := string_value (anonKey config) in
    match URL_protocol u with
    | None => invalid "Invalid Supabase URL format"
    | Some protocol =>
      if negb (jsstring_eqb protocol (JS "http:"))
         && negb (jsstring_eqb protocol (JS "https:"))
      then invalid "Supabase URL must use http:// or https:// protocol"
      else if Nat.eqb (length (trim k)) 0
      then invalid "Supabase anon key cannot be empty"
      else if includes k (JS "your_supabase_anon_key")
              || includes u (JS "your-project")
      then invalid "Please replace placeholder values with actual Supabase credentials"
      else {| valid := true; error := None |}
    end.

End Validator.

(** ** The SDK client and the platform *)

(** The SDK's client object.  The package builds it, keeps it and hands it
    out, and never looks inside; its identity is all that matters. *)
Inductive SupabaseClientType : Type :=
| ClientObject (ref : nat).

(** The third argument of [createClient]:
    [{ auth: {...}, db: {...}, realtime: {...} }]. *)
Record AuthOptions : Type := mkAuth {
  auth_storage : StorageAdapter;
  auth_autoRefreshToken : bool;
  auth_persistSession : bool;
  auth_detectSessionInUrl : bool
}.

Record DbOptions : Type := mkDb {
  db_schema : jsstring
}.

Record RealtimeOptions : Type := mkRealtime {
  heartbeatIntervalMs : jsnumber
}.

Record ClientOptions : Type := mkOptions {
  auth : AuthOptions;
  db : DbOptions;
  realtime : RealtimeOptions
}.

(** What the package imports and does not define.
    - [URL_protocol]: see the validator.
    - [createClient]: the SDK's constructor; it returns a client or throws.
    - [auth_signOut]: [client.auth.signOut()], awaited; it may rewrite the
      persistent store in any way and may reject.
    - [getAllKeys_rejects]: the error [AsyncStorage.getAllKeys()] rejects
      with, if it does.
    - [multiRemove_rejects]: the error [AsyncStorage.multiRemove(keys)]
      rejects with, if it does, and the store it leaves behind. *)
Record Platform : Type := mkPlatform {
  URL_protocol : jsstring -> option jsstring;
  createClient : jsval -> jsval -> ClientOptions -> outcome SupabaseClientType;
  auth_signOut : SupabaseClientType -> gmap jsstring jsstring ->
                 outcome unit * gmap jsstring jsstring;
  getAllKeys_rejects : gmap jsstring jsstring -> option thrown;
  multiRemove_rejects : list jsstring -> gmap jsstring jsstring ->
                        option (thrown * gmap jsstring jsstring)
}.

(** ** The holder and its world *)

(** The private fields of [SupabaseClientSingleton]. *)
Record Holder : Type := mkHolder {
  client : option SupabaseClientType;
  initializationError : option jsstring;
  config : option SupabaseConfig
}.

(** The mutable state the package can reach: the one holder instance
    ([supabaseClient]) and the default persistent key-value store. *)
Record World : Type := mkWorld {
  this : Holder;
  AsyncStorage : gmap jsstring jsstring
}.

(** The holder as the private constructor leaves it. *)
Definition new_SupabaseClientSingleton : Holder :=
  {| client := None; initializationError := None; config := None |}.

(** ** Computations that mutate the world and may throw *)

Definition M (A : Type) : Type := World -> outcome A * World.

#[global] Instance M_ret : MRet M := fun A (a : A) w => (Return a, w).

#[global] Instance M_bind : MBind M := fun A B (f : A -> M B) (m : M A) w =>
  match m w with
  | (Return a, w') => f a w'
  | (Throw e, w') => (Throw e, w')
  end.

Definition throw {A : Type} (e : thrown) : M A := fun w => (Throw e, w).

(** [try { body } catch (error) { handler }]: what [body] wrote before it
    threw stays written. *)
Definition try_catch {A : Type} (body : M A) (handler : thrown -> M A) : M A :=
  fun w =>
  match body w with
  | (Return a, w') => (Return a, w')
  | (Throw e, w') => handler e w'
  end.

Definition get_client : M (option SupabaseClientType) :=
  fun w => (Return (client (this w)), w).

Definition get_initializationError : M (option jsstring) :=
  fun w => (Return (initializationError (this w)), w).

Definition set_client (c : option SupabaseClientType) : M unit :=
  fun w => (Return tt,
            {| this := {| client := c;
                          initializationError := initializationError (this w);
                          config := config (this w) |};
               AsyncStorage := AsyncStorage w |}).

Definition set_initializationError (e : option jsstring) : M unit :=
  fun w => (Return tt,
            {| this := {| client := client (this w);
                          initializationError := e;
                          config := config (this w) |};
               AsyncStorage := AsyncStorage w |}).

Definition set_config (c : option SupabaseConfig) : M unit :=
  fun w => (Return tt,
            {| this := {| client := client (this w);
                          initializationError := initializationError (this w);
                          config := c |};
               AsyncStorage := AsyncStorage w |}).

(** The result of a call that has no effect on the world. *)
Definition call {A : Type} (r : outcome A) : M A := fun w => (r, w).

(** Truthiness of a [string | null] field. *)
Definition truthy_field (o : option jsstring) : bool :=
  match o with
  | Some s => truthy_string s
  | None => false
  end.

(** The [catch] clause of [initialize]:
    [error instanceof Error ? error.message : '...']. *)
Definition caught_message (error : thrown) : jsstring :=
  match error with
  | ThrownError e => message e
  | ThrownValue _ => JS "Failed to initialize Supabase client"
  end.

(** The options [initialize] derives from the configuration. *)
Definition clientOptions (config : SupabaseConfig) : ClientOptions :=
  let storage := object_or (storage config) AsyncStorageAdapter in
  {| auth := {| auth_storage := storage;
                auth_autoRefreshToken := nullish_or (autoRefreshToken config) true;
                auth_persistSession := nullish_or (persistSession config) true;
                auth_detectSessionInUrl := nullish_or (detectSessionInUrl config) false |};
     db := {| db_schema := string_or (schema config) (JS "public") |};
     realtime := {| heartbeatIntervalMs :=
                      number_or (realtimeHeartbeatIntervalMs config)
                                (Num (inject_Z 30000)) |} |}.

(** [key => key.includes('supabase') || ...], the filter of
    [clearSessionCache]. *)
Definition isSessionKey (key : jsstring) : bool :=
  includes key (JS "supabase") || includes key (JS "auth") ||
  includes key (JS "session") || includes key (JS "sb-").

(** The keys [clearSessionCache] passes to [multiRemove]: the session keys
    among all keys of the store. *)
Definition sessionKeys_of (store : gmap jsstring jsstring) : list jsstring :=
  List.filter isSessionKey (List.map fst (map_to_list store)).

Section Singleton.

Variable P : Platform.

(** The validator as [initialize] calls it: an imported function, whose call
    returns or throws. *)
Variable validate : SupabaseConfig -> outcome ValidationResult.

(** [SupabaseClientSingleton.initialize], over the validator it is linked
    with. *)
Definition initialize_with (config : SupabaseConfig) : M (option SupabaseClientType) :=
  c ← get_client;
  match c with
  | Some cl => mret (Some cl)
  | None =>
    e ← get_initializationError;
    if truthy_field e then mret None
    else
      try_catch
        (validation ← call (validate config);
         if negb (valid validation) then
           set_initializationError
             (Some (string_or (error validation) (JS "Invalid configuration")));;
           mret None
         else
           set_config (Some config);;
           cl ← call (createClient P (url config) (anonKey config)
                                   (clientOptions config));
           set_client (Some cl);;
           get_client)
        (fun error =>
           set_initializationError (Some (caught_message error));;
           mret None)
  end.

(** [SupabaseClientSingleton.getClient] *)
Definition getClient : M SupabaseClientType :=
  c ← get_client;
  match c with
  | None =>
    e ← get_initializationError;
    let errorMsg :=
      string_or e
        (JS "Supabase client not initialized. Call initialize() first with configuration.") in
    throw (ThrownError (SupabaseInitializationError errorMsg None))
  | Some cl => mret cl
  end.

(** [SupabaseClientSingleton.isInitialized] *)
Definition isInitialized : M bool :=
  c ← get_client;
  mret (match c with Some _ => true | None => false end).

(** [SupabaseClientSingleton.getInitializationError] *)
Definition getInitializationError : M (option jsstring) :=
  get_initializationError.

(** [AsyncStorage.getAllKeys()], awaited. *)
Definition AsyncStorage_getAllKeys : M (list jsstring) :=
  fun w =>
  match getAllKeys_rejects P (AsyncStorage w) with
  | Some e => (Throw e, w)
  | None => (Return (List.map fst (map_to_list (AsyncStorage w))), w)
  end.

(** [AsyncStorage.multiRemove(keys)], awaited. *)
Definition AsyncStorage_multiRemove (keys : list jsstring) : M unit :=
  fun w =>
  match multiRemove_rejects P keys (AsyncStorage w) with
  | Some (e, rest) => (Throw e, {| this := this w; AsyncStorage := rest |})
  | None => (Return tt, {| this := this w;
                           AsyncStorage := foldr delete (AsyncStorage w) keys |})
  end.

(** [client.auth.signOut()], awaited. *)
Definition client_auth_signOut (cl : SupabaseClientType) : M unit :=
  fun w =>
  let (r, store) := auth_signOut P cl (AsyncStorage w) in
  (r, {| this := this w; AsyncStorage := store |}).

(** [SupabaseClientSingleton.clearSessionCache], its awaits run in
    sequence. *)
Definition clearSessionCache : M unit :=
  try_catch
    (c ← get_client;
     match c with
     | Some cl =>
       client_auth_signOut cl;;
       keys ← AsyncStorage_getAllKeys;
       let sessionKeys := List.filter isSessionKey keys in
       if Nat.ltb 0 (length sessionKeys)
       then AsyncStorage_multiRemove sessionKeys
       else mret tt
     | None => mret tt
     end)
    (fun _ => mret tt).

(** [SupabaseClientSingleton.reset] *)
Definition reset : M unit :=
  set_client None;;
  set_initializationError None;;
  set_config None.

End Singleton.

(** [initialize] as the package links it: with [validateSupabaseConfig]. *)
Definition initialize (P : Platform) (config : SupabaseConfig)
    : M (option SupabaseClientType) :=
  initialize_with P
    (fun c => Return (validateSupabaseConfig (URL_protocol P) c)) config.

(** ** The worlds [initialize] ends in *)

(** The world after [initialize] recorded the message [msg]; [cfg] is the
    stored configuration at that point. *)
Definition failed (w : World) (cfg : option SupabaseConfig) (msg : jsstring) : World :=
  {| this := {| client := client (this w);
                initializationError := Some msg;
                config := cfg |};
     AsyncStorage := AsyncStorage w |}.

(** The world after a successful construction. *)
Definition succeeded (w : World) (config : SupabaseConfig)
    (cl : SupabaseClientType) : World :=
  {| this := {| client := Some cl;
                initializationError := initializationError (this w);
                config := Some config |};
     AsyncStorage := AsyncStorage w |}.

(** ** Sequences of calls on the public API *)

Inductive Call : Type :=
| CallInitialize (config : SupabaseConfig)
| CallGetClient
| CallIsInitialized
| CallGetInitializationError
| CallClearSessionCache
| CallReset.

(** The world after one call; what the call returned or threw is dropped. *)
Definition perform (P : Platform) (c : Call) (w : World) : World :=
  match c with
  | CallInitialize config => snd (initialize P config w)
  | CallGetClient => snd (getClient w)
  | CallIsInitialized => snd (isInitialized w)
  | CallGetInitializationError => snd (getInitializationError w)
  | CallClearSessionCache => snd (clearSessionCache P w)
  | CallReset => snd (reset w)
  end.

Definition run_calls (P : Platform) (calls : list Call) (w : World) : World :=
  fold_left (fun w c => perform P c w) calls w.

(** The world at module load: an empty holder over whatever the store
    holds. *)
Definition start (store : gmap jsstring jsstring) : World :=
  {| this := new_SupabaseClientSingleton; AsyncStorage := store |}.

(** The worlds a sequence of calls can lead to.  The collaborators need not
    behave the same way twice: each call runs on some platform of [env]. *)
Inductive reachable (env : Platform -> Prop) : World -> Prop :=
| reachable_start store : reachable env (start store)
| reachable_call P w c :
    env P -> reachable env w -> reachable env (perform P c w).

(** The platforms that are [P]. *)
Definition only (P : Platform) : Platform -> Prop := fun P' => P' = P.

Definition is_reset (c : Call) : bool :=
  match c with
  | CallReset => true
  | _ => false
  end.

(** ** The validator as the specification words it *)

(** The five checks of the specification, in its order. *)
Inductive rule : Type :=
| UrlPresentAndString
| KeyPresentAndString
| UrlWellFormedHttp
| KeyNonEmptyTrimmed
| NoPlaceholder.

Definition rules_in_order : list rule :=
  [UrlPresentAndString; KeyPresentAndString; UrlWellFormedHttp;
   KeyNonEmptyTrimmed; NoPlaceholder].

Section ValidatorSpec.

Variable URL_protocol : jsstring -> option jsstring.

(** What each check asks of a configuration. *)
Definition passes (r : rule) (config : SupabaseConfig) : bool :=
  match r with
  | UrlPresentAndString =>
      truthy (url config) && jstype_eqb (typeof (url config)) TString
  | KeyPresentAndString =>
      truthy (anonKey config) && jstype_eqb (typeof (anonKey config)) TString
  | UrlWellFormedHttp =>
      match URL_protocol (string_value (url config)) with
      | Some p => is_http_protocol p
      | None => false
      end
  | KeyNonEmptyTrimmed =>
      negb (Nat.eqb (length (trim (string_value (anonKey config)))) 0)
  | NoPlaceholder =>
      negb (includes (string_value (anonKey config)) (JS "your_supabase_anon_key"))
      && negb (includes (string_value (url config)) (JS "your-project"))
  end.

(** The error a failed check reports. *)
Definition complaint (r : rule) (config : SupabaseConfig) : jsstring :=
  match r with
  | UrlPresentAndString => JS "Supabase URL is required and must be a string"
  | KeyPresentAndString => JS "Supabase anon key is required and must be a string"
  | UrlWellFormedHttp =>
      match URL_protocol (string_value (url config)) with
      | None => JS "Invalid Supabase URL format"
      | Some _ => JS "Supabase URL must use http:// or https:// protocol"
      end
  | KeyNonEmptyTrimmed => JS "Supabase anon key cannot be empty"
  | NoPlaceholder =>
      JS "Please replace placeholder values with actual Supabase credentials"
  end.

(** The first check of a list that the configuration fails. *)
Fixpoint first_failure (rs : list rule) (config : SupabaseConfig) : option rule :=
  match rs with
  | [] => None
  | r :: rs' => if passes r config then first_failure rs' config else Some r
  end.

(** Run the checks in order and stop at the first failure. *)
Definition validate_spec (config : SupabaseConfig) : ValidationResult :=
  match first_failure rules_in_order config with
  | None => {| valid := true; error := None |}
  | Some r => {| valid := false; error := Some (complaint r config) |}
  end.

End ValidatorSpec.

(** ** Platforms and configurations for the examples *)

Definition isAsciiAlpha (c : N) : bool :=
  (N.leb 65 c && N.leb c 90) || (N.leb 97 c && N.leb c 122).

Definition isSchemeUnit (c : N) : bool :=
  isAsciiAlpha c || (N.leb 48 c && N.leb c 57) ||
  N.eqb c 43 || N.eqb c 45 || N.eqb c 46.

Definition asciiLower (c : N) : N :=
  if N.leb 65 c && N.leb c 90 then (c + 32)%N else c.

Fixpoint scan_scheme (s acc : jsstring) : option jsstring :=
  match s with
  | [] => None
  | c :: s' =>
    if N.eqb c 58 then Some (rev acc ++ [58%N])
    else if isSchemeUnit c then scan_scheme s' (asciiLower c :: acc)
    else None
  end.

(** A [URL] for the examples: the scheme is read as the URL Standard reads
    it (a letter, then letters, digits, [+], [-], [.], up to the colon), and
    a string without one is rejected; the rest of the string is not
    checked. *)
Definition example_URL_protocol (s : jsstring) : option jsstring :=
  match s with
  | c :: _ => if isAsciiAlpha c then scan_scheme s [] else None
  | [] => None
  end.

(** An SDK constructor for the examples.  It fails with an empty message on
    a key containing [throw-empty], with the message [boom] on another key
    containing [throw], and otherwise returns a client that is told apart
    by the length of the key. *)
Definition example_createClient (u k : jsval) (o : ClientOptions)
    : outcome SupabaseClientType :=
  let key := string_value k in
  if includes key (JS "throw-empty") then Throw (ThrownError (Error []))
  else if includes key (JS "throw") then Throw (ThrownError (Error (JS "boom")))
  else Return (ClientObject (length key)).

(** A platform on which sign-out and the store always succeed. *)
Definition example_platform : Platform :=
  {| URL_protocol := example_URL_protocol;
     createClient := example_createClient;
     auth_signOut := fun _ store => (Return tt, store);
     getAllKeys_rejects := fun _ => None;
     multiRemove_rejects := fun _ _ => None |}.

(** A platform whose store rejects every batch delete without deleting. *)
Definition failing_store_platform : Platform :=
  {| URL_protocol := example_URL_protocol;
     createClient := example_createClient;
     auth_signOut := fun _ store => (Return tt, store);
     getAllKeys_rejects := fun _ => None;
     multiRemove_rejects := fun _ store =>
       Some (ThrownError (Error (JS "storage unavailable")), store) |}.

(** A platform whose constructor reports what it was given: the client's
    reference is [observe] of the options. *)
Definition probe_platform (observe : ClientOptions -> nat) : Platform :=
  {| URL_protocol := example_URL_protocol;
     createClient := fun _ _ o => Return (ClientObject (observe o));
     auth_signOut := fun _ store => (Return tt, store);
     getAllKeys_rejects := fun _ => None;
     multiRemove_rejects := fun _ _ => None |}.

(** The heartbeat interval in the options, in whole seconds, [0] standing
    for what is not finite. *)
Definition observe_heartbeat (o : ClientOptions) : nat :=
  match heartbeatIntervalMs (realtime o) with
  | Num q => Z.to_nat (Qfloor q / 1000)
  | NaN | Infinity _ => 0
  end.

(** The length of the schema name in the options. *)
Definition observe_schema_length (o : ClientOptions) : nat :=
  length (db_schema (db o)).

(** A configuration with the two required properties only. *)
Definition config_of (u k : string) : SupabaseConfig :=
  {| url := JString (JS u); anonKey := JString (JS k);
     storage := None; schema := None; realtimeHeartbeatIntervalMs := None;
     autoRefreshToken := None; persistSession := None;
     detectSessionInUrl := None |}.

(** The store of the specification's session-key example. *)
Definition example_store : gmap jsstring jsstring :=
  list_to_map [(JS "sb-access-token", JS "t1"); (JS "user-settings", JS "dark");
               (JS "supabase.auth.token", JS "t2"); (JS "theme", JS "blue")].

Definition not_initialized_message : jsstring :=
  JS "Supabase client not initialized. Call initialize() first with configuration.".

(** ** The remaining error classes *)

(** [class SupabaseAuthError extends SupabaseError] *)
Definition SupabaseAuthError (msg : jsstring)
    (originalError : option jsval) : ErrorObject :=
  set_name (SupabaseError msg (Some (JS "AUTH_ERROR")) originalError)
           (JS "SupabaseAuthError").

(** [class SupabaseDatabaseError extends SupabaseError] *)
Definition SupabaseDatabaseError (msg : jsstring)
    (originalError : option jsval) : ErrorObject :=
  set_name (SupabaseError msg (Some (JS "DATABASE_ERROR")) originalError)
           (JS "SupabaseDatabaseError").

(** [class SupabaseStorageError extends SupabaseError] *)
Definition SupabaseStorageError (msg : jsstring)
    (originalError : option jsval) : ErrorObject :=
  set_name (SupabaseError msg (Some (JS "STORAGE_ERROR")) originalError)
           (JS "SupabaseStorageError").

(** [class SupabaseRealtimeError extends SupabaseError] *)
Definition SupabaseRealtimeError (msg : jsstring)
    (originalError : option jsval) : ErrorObject :=
  set_name (SupabaseError msg (Some (JS "REALTIME_ERROR")) originalError)
           (JS "SupabaseRealtimeError").

(** The six subclasses of [SupabaseError], and [new C(msg, originalError)]
    for each. *)
Inductive SupabaseErrorClass : Type :=
| InitializationClass
| ConfigurationClass
| AuthClass
| DatabaseClass
| StorageClass
| RealtimeClass.

Definition new_error (c : SupabaseErrorClass) (msg : jsstring)
    (originalError : option jsval) : ErrorObject :=
  match c with
  | InitializationClass => SupabaseInitializationError msg originalError
  | ConfigurationClass => SupabaseConfigurationError msg originalError
  | AuthClass => SupabaseAuthError msg originalError
  | DatabaseClass => SupabaseDatabaseError msg originalError
  | StorageClass => SupabaseStorageError msg originalError
  | RealtimeClass => SupabaseRealtimeError msg originalError
  end.

(** ** The exported functions *)

(** The free functions of [SupabaseClient.ts]; each forwards to the one
    holder instance, [supabaseClient], which is [this] of the world. *)
Definition initializeSupabase (P : Platform) (config : SupabaseConfig)
    : M (option SupabaseClientType) :=
  initialize P config.

Definition getSupabaseClient : M SupabaseClientType := getClient.

Definition isSupabaseInitialized : M bool := isInitialized.

Definition getSupabaseInitializationError : M (option jsstring) :=
  getInitializationError.

Definition clearSupabaseSessionCache (P : Platform) : M unit :=
  clearSessionCache P.

Definition resetSupabaseClient : M unit := reset.

(** ** Calls under changing platforms *)

(** A sequence of calls, each with the platform it runs on. *)
Definition run_trace (trace : list (Platform * Call)) (w : World) : World :=
  fold_left (fun w pc => perform (fst pc) (snd pc) w) trace w.

(** ** The hook *)

(** A [useMemo] cell of React: the dependencies of the last computation and
    its value. *)
Record MemoCell (D A : Type) : Type := mkMemo {
  memo_deps : D;
  memo_value : A
}.

Arguments mkMemo {D A} _ _.
Arguments memo_deps {D A} _.
Arguments memo_value {D A} _.

(** [useMemo(create, deps)]: on mount ([None]) the value is computed; on a
    later render it is computed again only when the dependencies differ from
    the remembered ones.  A [create] that throws ends the render.  A cell is
    kept for as long as the component stays mounted; the occasions on which
    React may drop one are left out. *)
Definition useMemo {D A : Type} (same : D -> D -> bool)
    (cell : option (MemoCell D A)) (create : M A) (deps : D)
    : M (MemoCell D A) :=
  match cell with
  | Some c =>
    if same (memo_deps c) deps then mret c
    else v ← create; mret (mkMemo deps v)
  | None => v ← create; mret (mkMemo deps v)
  end.

(** [interface UseSupabaseResult]; [getClientSafely] is a function, kept as
    the computation a call of it runs. *)
Record UseSupabaseResult : Type := mkResult {
  result_client : SupabaseClientType;
  result_isInitialized : bool;
  getClientSafely : M (option SupabaseClientType)
}.

(** The three memo cells of a mounted component that calls [useSupabase]. *)
Record HookCells : Type := mkCells {
  cell_isInitialized : MemoCell unit bool;
  cell_client : MemoCell bool SupabaseClientType;
  cell_getClientSafely : MemoCell bool (M (option SupabaseClientType))
}.

Definition hook_not_initialized_message : jsstring :=
  JS "Supabase client not initialized. Call initializeSupabase() first.".

(** The function the third [useMemo] of the hook creates, closed over
    [isInitialized]. *)
Definition getClientSafely_of (initialized : bool)
    : M (option SupabaseClientType) :=
  if negb initialized then mret None
  else try_catch (cl ← getSupabaseClient; mret (Some cl))
                 (fun _ => mret None).

(** [useSupabase], one render: [cells] is what the component remembers from
    its previous render, [None] on mount. *)
Definition useSupabase (cells : option HookCells)
    : M (UseSupabaseResult * HookCells) :=
  c1 ← useMemo (fun _ _ : unit => true) (cell_isInitialized <$> cells)
               isSupabaseInitialized tt;
  let initialized := memo_value c1 in
  c2 ← useMemo Bool.eqb (cell_client <$> cells)
               (if negb initialized
                then throw (ThrownError
                              (SupabaseInitializationError
                                 hook_not_initialized_message None))
                else getSupabaseClient)
               initialized;
  c3 ← useMemo Bool.eqb (cell_getClientSafely <$> cells)
               (mret (getClientSafely_of initialized))
               initialized;
  mret ({| result_client := memo_value c2;
           result_isInitialized := initialized;
           getClientSafely := memo_value c3 |},
        {| cell_isInitialized := c1;
           cell_client := c2;
           cell_getClientSafely := c3 |}).

(** A platform whose sign-out rejects and leaves the store alone. *)
Definition failing_signOut_platform : Platform :=
  {| URL_protocol := example_URL_protocol;
     createClient := example_createClient;
     auth_signOut := fun _ store =>
       (Throw (ThrownError (Error (JS "network request failed"))), store);
     getAllKeys_rejects := fun _ => None;
     multiRemove_rejects := fun _ _ => None |}.

(** * Properties *)

(** ** Strings *)

Lemma startsWith_spec (s t : jsstring) :
  startsWith s t = true <-> exists b, s = t ++ b.
Proof.
  revert s. induction t as [|c t IH]; intros s; simpl.
  - split; [intros _; exists s; reflexivity | intros _; destruct s; reflexivity].
  - destruct s as [|a s]; simpl.
    + split; [discriminate | intros [b Hb]; discriminate].
    + rewrite andb_true_iff, N.eqb_eq, IH. split.
      * intros [-> [b ->]]. exists b. reflexivity.
      * intros [b Hb]. injection Hb as -> ->. split; [reflexivity | eauto].
Qed.

(** [includes] is substring occurrence. *)
Lemma includes_spec (s t : jsstring) :
  includes s t = true <-> exists a b, s = a ++ t ++ b.
Proof.
  induction s as [|c s IH].
  - change (includes [] t) with (startsWith [] t || false).
    rewrite orb_false_r, startsWith_spec. split.
    + intros [b Hb]. exists [], b. exact Hb.
    + intros [a [b Hab]]. destruct a; [exists b; exact Hab | discriminate].
  - change (includes (c :: s) t) with (startsWith (c :: s) t || includes s t).
    rewrite orb_true_iff, startsWith_spec, IH. split.
    + intros [[b Hb] | [a [b Hab]]].
      * exists [], b. exact Hb.
      * exists (c :: a), b. simpl. rewrite Hab. reflexivity.
    + intros [a [b Hab]]. destruct a as [|c' a]; simpl in Hab.
      * left. exists b. exact Hab.
      * right. injection Hab as -> ->. eauto.
Qed.

Lemma trimStart_nil_iff (s : jsstring) :
  trimStart s = [] <-> forallb isWhiteSpace s = true.
Proof.
  induction s as [|c s IH]; simpl; [tauto|].
  destruct (isWhiteSpace c); simpl; [exact IH|].
  split; discriminate.
Qed.

Lemma trimStart_head (s r : jsstring) (c : N) :
  trimStart s = c :: r -> isWhiteSpace c = false.
Proof.
  induction s as [|d s IH]; simpl; [discriminate|].
  destruct (isWhiteSpace d) eqn:Ed; [exact IH|].
  intros E. injection E as -> ->. exact Ed.
Qed.

(** A string trims to nothing exactly when it is white space throughout. *)
Lemma trim_empty_iff (s : jsstring) :
  length (trim s) = 0 <-> forallb isWhiteSpace s = true.
Proof.
  unfold trim, trimEnd. rewrite length_rev, length_zero_iff_nil.
  rewrite <- (trimStart_nil_iff s).
  destruct (trimStart s) as [|c r] eqn:E; [tauto|].
  split; [|discriminate].
  intros H. apply trimStart_nil_iff in H. simpl in H.
  rewrite forallb_app in H. simpl in H.
  rewrite (trimStart_head _ _ _ E) in H.
  rewrite andb_false_r in H. discriminate.
Qed.

Lemma truthy_string_nonempty (s : jsstring) : truthy_string s = true <-> s <> [].
Proof. destruct s; simpl; split; congruence. Qed.

Lemma string_or_nonempty (o : option jsstring) (d : jsstring) :
  d <> [] -> string_or o d <> [].
Proof.
  intros Hd. destruct o as [[|c s]|]; simpl; congruence.
Qed.

Lemma JS_cons_nonempty (c : ascii) (s : string) : JS (String c s) <> [].
Proof. unfold JS. simpl. discriminate. Qed.

(** ** The holder, case by case *)

Ltac run_holder :=
  unfold initialize, initialize_with, getClient, isInitialized,
    getInitializationError, reset, clearSessionCache, try_catch, call, throw,
    get_client, get_initializationError, set_client,
    set_initializationError, set_config, mbind, M_bind, mret, M_ret;
  simpl.

Section HolderCases.

Variable P : Platform.
Variable validate : SupabaseConfig -> outcome ValidationResult.

(** Lines 58-60: a stored client is returned as it is. *)
Lemma initialize_with_stored cfg w cl :
  client (this w) = Some cl ->
  initialize_with P validate cfg w = (Return (Some cl), w).
Proof.
  intros H. run_holder. rewrite H. reflexivity.
Qed.

(** Lines 63-65: a truthy recorded error ends the call. *)
Lemma initialize_with_locked cfg w :
  client (this w) = None ->
  truthy_field (initializationError (this w)) = true ->
  initialize_with P validate cfg w = (Return None, w).
Proof.
  intros Hc He. run_holder. rewrite Hc, He. reflexivity.
Qed.

(** The validator call throws: the [catch] clause records the message. *)
Lemma initialize_with_validator_throws cfg w e :
  client (this w) = None ->
  truthy_field (initializationError (this w)) = false ->
  validate cfg = Throw e ->
  initialize_with P validate cfg w
  = (Return None, failed w (config (this w)) (caught_message e)).
Proof.
  intros Hc He Hv. run_holder. rewrite Hc, He, Hv. reflexivity.
Qed.

(** Lines 70-73: the configuration is refused. *)
Lemma initialize_with_refused cfg w v :
  client (this w) = None ->
  truthy_field (initializationError (this w)) = false ->
  validate cfg = Return v ->
  valid v = false ->
  initialize_with P validate cfg w
  = (Return None,
     failed w (config (this w)) (string_or (error v) (JS "Invalid configuration"))).
Proof.
  intros Hc He Hv Hf. run_holder. rewrite Hc, He, Hv. simpl. rewrite Hf. reflexivity.
Qed.

(** Lines 76-109: the configuration is accepted, stored, and the SDK's
    constructor decides the rest. *)
Lemma initialize_with_accepted cfg w v :
  client (this w) = None ->
  truthy_field (initializationError (this w)) = false ->
  validate cfg = Return v ->
  valid v = true ->
  initialize_with P validate cfg w
  = match createClient P (url cfg) (anonKey cfg) (clientOptions cfg) with
    | Return cl => (Return (Some cl), succeeded w cfg cl)
    | Throw e => (Return None, failed w (Some cfg) (caught_message e))
    end.
Proof.
  intros Hc He Hv Ht. run_holder. rewrite Hc, He, Hv. simpl. rewrite Ht. simpl.
  destruct (createClient P _ _ _) as [cl|e]; simpl; unfold failed, succeeded;
    rewrite ?Hc; reflexivity.
Qed.

(** [initialize] returns; it has no path that throws. *)
Lemma initialize_with_returns cfg w :
  exists r, fst (initialize_with P validate cfg w) = Return r.
Proof.
  destruct (client (this w)) as [cl|] eqn:Hc.
  { rewrite (initialize_with_stored _ _ _ Hc). eauto. }
  destruct (truthy_field (initializationError (this w))) eqn:He.
  { rewrite (initialize_with_locked _ _ Hc He). eauto. }
  destruct (validate cfg) as [v|e] eqn:Hv.
  - destruct (valid v) eqn:Ht.
    + rewrite (initialize_with_accepted _ _ _ Hc He Hv Ht).
      destruct (createClient P _ _ _); simpl; eauto.
    + rewrite (initialize_with_refused _ _ _ Hc He Hv Ht). eauto.
  - rewrite (initialize_with_validator_throws _ _ _ Hc He Hv). eauto.
Qed.

End HolderCases.

(** The four read-only or guarded calls on a holder without a client. *)

Lemma getClient_world (w : World) : snd (getClient w) = w.
Proof.
  run_holder. destruct (client (this w)); reflexivity.
Qed.

Lemma isInitialized_world (w : World) : snd (isInitialized w) = w.
Proof. reflexivity. Qed.

Lemma getInitializationError_world (w : World) :
  snd (getInitializationError w) = w.
Proof. reflexivity. Qed.

Lemma clearSessionCache_no_client (P : Platform) (w : World) :
  client (this w) = None -> clearSessionCache P w = (Return tt, w).
Proof.
  intros H. run_holder. rewrite H. reflexivity.
Qed.

Lemma initialize_returns (P : Platform) (cfg : SupabaseConfig) (w : World) :
  exists r, fst (initialize P cfg w) = Return r.
Proof. apply initialize_with_returns. Qed.

(** A call other than [reset] leaves a locked holder as it is. *)
Lemma perform_locked (P : Platform) (c : Call) (w : World) :
  client (this w) = None ->
  truthy_field (initializationError (this w)) = true ->
  is_reset c = false ->
  perform P c w = w.
Proof.
  intros Hc He Hr. destruct c as [cfg| | | | |]; simpl.
  - unfold initialize. rewrite (initialize_with_locked _ _ _ _ Hc He). reflexivity.
  - apply getClient_world.
  - reflexivity.
  - reflexivity.
  - rewrite (clearSessionCache_no_client _ _ Hc). reflexivity.
  - discriminate.
Qed.

Lemma run_calls_locked (P : Platform) (calls : list Call) (w : World) :
  client (this w) = None ->
  truthy_field (initializationError (this w)) = true ->
  existsb is_reset calls = false ->
  run_calls P calls w = w.
Proof.
  intros Hc He. induction calls as [|c calls IH]; simpl; [reflexivity|].
  intros H. apply orb_false_iff in H as [H1 H2].
  unfold run_calls in *. simpl.
  rewrite (perform_locked _ _ _ Hc He H1). apply IH. exact H2.
Qed.

(** ** C1: the retry lock *)

(** The lock where the guard of line 63 sees the recorded error.  On a
    holder that stores no client and records a non-empty initialization
    error, [initialize] returns empty for every configuration and leaves the
    world as it is, whatever the validator and the SDK constructor would
    have done (they are not consulted); the holder stays uninitialized, and
    no call other than [reset] changes the world, on any platform, so the
    lock holds through every sequence of calls that has no [reset] in it. *)
Theorem initialize_fail_closed (P : Platform) (w : World) :
  client (this w) = None ->
  truthy_field (initializationError (this w)) = true ->
  (forall validate cfg, initialize_with P validate cfg w = (Return None, w)) /\
  (forall cfg, initialize P cfg w = (Return None, w)) /\
  fst (isInitialized w) = Return false /\
  (forall P' c, is_reset c = false -> perform P' c w = w) /\
  (forall calls, existsb is_reset calls = false -> run_calls P calls w = w).
Proof.
  intros Hc He. repeat split.
  - intros validate cfg. apply initialize_with_locked; assumption.
  - intros cfg. apply initialize_with_locked; assumption.
  - run_holder. rewrite Hc. reflexivity.
  - intros P' c H. apply perform_locked; assumption.
  - intros calls H. apply run_calls_locked; assumption.
Qed.

(** The lock at work: after a refused configuration ([not-a-url]) a valid
    one is turned away. *)
Lemma initialize_fail_closed_witness :
  let w1 := snd (initialize example_platform (config_of "not-a-url" "abc123")
                            (start ∅)) in
  initialize example_platform (config_of "https://x.supabase.co" "abc123") w1
  = (Return None, w1).
Proof.
  intros w1.
  exact (proj1 (proj2 (initialize_fail_closed example_platform w1 eq_refl eq_refl))
               (config_of "https://x.supabase.co" "abc123")).
Defined.

(** C1.  The lock is meant to hold after every failed [initialize] (line
    62: "Don't retry if initialization already failed"), and the code breaks
    it when the failure has no message.  The SDK constructor throws an
    [Error] whose message is the empty string; the [catch] clause records
    that string and [initialize] returns empty, so an initialization error
    is recorded and no client is stored.  The guard
    [if (this.initializationError)] reads the empty string as no error: the
    next [initialize], with a valid configuration and no [reset] in between,
    runs validation and construction again and returns a client, where it
    should have returned empty. *)
Lemma initialize_retries_after_empty_message :
  let w0 := start ∅ in
  let r1 := initialize example_platform
              (config_of "https://x.supabase.co" "throw-empty") w0 in
  let w1 := snd r1 in
  fst r1 = Return None /\
  client (this w1) = None /\
  initializationError (this w1) = Some [] /\
  fst (initialize example_platform (config_of "https://x.supabase.co" "abc123") w1)
  = Return (Some (ClientObject 6)).
Proof. vm_compute. repeat split. Qed.

(** ** C2: idempotence after success *)

Lemma initialize_start_success (P : Platform) (store : gmap jsstring jsstring)
    (cfg : SupabaseConfig) (cl : SupabaseClientType) (w1 : World) :
  initialize P cfg (start store) = (Return (Some cl), w1) ->
  w1 = succeeded (start store) cfg cl.
Proof.
  intros H. unfold initialize in H.
  destruct (valid (validateSupabaseConfig (URL_protocol P) cfg)) eqn:Hv.
  - rewrite (initialize_with_accepted P _ cfg (start store) _ eq_refl eq_refl eq_refl Hv) in H.
    destruct (createClient P _ _ _); congruence.
  - rewrite (initialize_with_refused P _ cfg (start store) _ eq_refl eq_refl eq_refl Hv) in H.
    congruence.
Qed.

(** C2.  Once a client is stored, [initialize] returns that client for
    every configuration and changes nothing: the client, the recorded error
    and the stored configuration are those of before.  In particular, when a
    first [initialize] on the empty holder returned a client, a second one
    with any other configuration returns the same client, and the stored
    configuration is still the first. *)
Theorem initialize_idempotent (P : Platform) :
  (forall w cl validate config2,
     client (this w) = Some cl ->
     initialize_with P validate config2 w = (Return (Some cl), w)) /\
  (forall w cl config2,
     client (this w) = Some cl ->
     initialize P config2 w = (Return (Some cl), w)) /\
  (forall store config1 config2 cl w1,
     initialize P config1 (start store) = (Return (Some cl), w1) ->
     initialize P config2 w1 = (Return (Some cl), w1) /\
     client (this w1) = Some cl /\
     config (this w1) = Some config1).
Proof.
  repeat split.
  - intros. apply initialize_with_stored. assumption.
  - intros. apply initialize_with_stored. assumption.
  - apply initialize_start_success in H. subst w1.
    apply initialize_with_stored. reflexivity.
  - apply initialize_start_success in H. subst w1. reflexivity.
  - apply initialize_start_success in H. subst w1. reflexivity.
Qed.

(** Two valid configurations that differ, one client. *)
Lemma initialize_idempotent_witness :
  let c1 := config_of "https://x.supabase.co" "abc123" in
  let c2 := config_of "https://y.supabase.co" "another-key" in
  let w1 := snd (initialize example_platform c1 (start ∅)) in
  initialize example_platform c2 w1 = (Return (Some (ClientObject 6)), w1) /\
  client (this w1) = Some (ClientObject 6) /\
  config (this w1) = Some c1.
Proof.
  intros c1 c2 w1.
  exact (proj2 (proj2 (initialize_idempotent example_platform))
               ∅ c1 c2 (ClientObject 6) w1 eq_refl).
Defined.

(** ** C3: the contract of [getClient] *)

(** C3, as amended.  [getClient] never changes the world.  It throws exactly
    when no client is stored, and what it throws is then a
    [SupabaseInitializationError] with the code [INITIALIZATION_ERROR], whose
    message is the recorded initialization error when there is one and it is
    not the empty string, and the "not initialized" default when nothing is
    recorded or the empty string is.  When a client is stored it returns that
    client. *)
Theorem getClient_contract (w : World) :
  snd (getClient w) = w /\
  ((exists e, fst (getClient w) = Throw e) <-> client (this w) = None) /\
  (forall cl, client (this w) = Some cl -> fst (getClient w) = Return cl) /\
  (client (this w) = None ->
   exists err,
     fst (getClient w) = Throw (ThrownError err) /\
     name err = JS "SupabaseInitializationError" /\
     code err = Some (JS "INITIALIZATION_ERROR") /\
     message err = match initializationError (this w) with
                   | Some (c :: s) => c :: s
                   | Some [] => not_initialized_message
                   | None => not_initialized_message
                   end).
Proof.
  split; [apply getClient_world|].
  run_holder. destruct (client (this w)) as [cl|] eqn:Hc; simpl.
  - repeat split.
    + intros [e He]. discriminate.
    + discriminate.
    + intros cl' H. congruence.
    + discriminate.
  - repeat split.
    + eauto.
    + discriminate.
    + intros _. eexists. split; [reflexivity|].
      repeat split.
      destruct (initializationError (this w)) as [[|c s]|]; reflexivity.
Qed.

(** The recorded message comes back from [getClient] after a refused
    configuration. *)
Lemma getClient_contract_witness :
  let w1 := snd (initialize example_platform (config_of "not-a-url" "abc123")
                            (start ∅)) in
  exists err,
    fst (getClient w1) = Throw (ThrownError err) /\
    name err = JS "SupabaseInitializationError" /\
    code err = Some (JS "INITIALIZATION_ERROR") /\
    message err = JS "Invalid Supabase URL format".
Proof.
  intros w1.
  exact (proj2 (proj2 (proj2 (getClient_contract w1))) eq_refl).
Defined.

(** C3 as stated fails once the recorded error is the empty string, as it
    is after the constructor threw an [Error] without a message: the error
    [getClient] throws carries the default message, not the recorded one
    ([this.initializationError || '...']). *)
Lemma getClient_replaces_empty_message :
  let w := snd (initialize example_platform
                  (config_of "https://x.supabase.co" "throw-empty") (start ∅)) in
  client (this w) = None /\
  initializationError (this w) = Some [] /\
  exists err,
    fst (getClient w) = Throw (ThrownError err) /\
    message err = not_initialized_message /\
    message err <> [].
Proof.
  vm_compute. repeat split. eexists. repeat split. discriminate.
Qed.

(** ** C5: [initialize] does not throw *)

(** C5.  [initialize] returns on every world, for every configuration,
    every validator and every platform: no exception leaves it.  When the
    guards let the call through and the validator throws [e], or the
    validator accepts and the SDK constructor throws [e], the call returns
    empty and the holder records [e]'s message if [e] is an [Error] and the
    generic message if it is not; the record is what
    [getInitializationError] returns afterwards and, when it is not the
    empty string, the message of the error a later [getClient] throws. *)
Theorem initialize_never_throws (P : Platform)
    (validate : SupabaseConfig -> outcome ValidationResult)
    (cfg : SupabaseConfig) (w : World) :
  (exists r, fst (initialize_with P validate cfg w) = Return r) /\
  (exists r, fst (initialize P cfg w) = Return r) /\
  (forall e,
     client (this w) = None ->
     truthy_field (initializationError (this w)) = false ->
     validate cfg = Throw e ->
     initialize_with P validate cfg w
     = (Return None, failed w (config (this w)) (caught_message e))) /\
  (forall v e,
     client (this w) = None ->
     truthy_field (initializationError (this w)) = false ->
     validate cfg = Return v ->
     valid v = true ->
     createClient P (url cfg) (anonKey cfg) (clientOptions cfg) = Throw e ->
     initialize_with P validate cfg w
     = (Return None, failed w (Some cfg) (caught_message e))) /\
  (forall err, caught_message (ThrownError err) = message err) /\
  (forall v, caught_message (ThrownValue v)
             = JS "Failed to initialize Supabase client") /\
  (forall stored msg,
     fst (getInitializationError (failed w stored msg)) = Return (Some msg)) /\
  (forall stored c msg,
     client (this w) = None ->
     fst (getClient (failed w stored (c :: msg)))
     = Throw (ThrownError (SupabaseInitializationError (c :: msg) None))).
Proof.
  split; [apply initialize_with_returns|].
  split; [apply initialize_returns|].
  split.
  { intros e Hc He Hv. apply initialize_with_validator_throws; assumption. }
  split.
  { intros v e Hc He Hv Ht Hk.
    rewrite (initialize_with_accepted P validate cfg w v Hc He Hv Ht), Hk.
    reflexivity. }
  split; [reflexivity|].
  split; [reflexivity|].
  split; [reflexivity|].
  intros stored c msg Hc. run_holder. rewrite Hc. reflexivity.
Qed.

(** A constructor failure is recorded, not thrown. *)
Lemma initialize_never_throws_witness :
  let cfg := config_of "https://x.supabase.co" "throw" in
  let w := start ∅ in
  initialize example_platform cfg w
  = (Return None, failed w (Some cfg) (JS "boom")).
Proof.
  intros cfg w.
  exact (proj1 (proj2 (proj2 (proj2
           (initialize_never_throws example_platform
              (fun c => Return (validateSupabaseConfig example_URL_protocol c))
              cfg w))))
           _ (ThrownError (Error (JS "boom")))
           eq_refl eq_refl eq_refl eq_refl eq_refl).
Defined.

(** ** C10: the configuration survives a failed construction *)

(** C10.  On the empty holder, when the validator accepts the configuration
    and the SDK constructor throws, [initialize] returns empty, records the
    error, stores no client, and the stored configuration is the one that
    failed; when the validator refuses the configuration, the stored
    configuration stays empty.  So a holder without a client can hold a
    configuration, and such a holder is reachable. *)
Theorem config_kept_on_construction_failure (P : Platform)
    (store : gmap jsstring jsstring) (cfg : SupabaseConfig) :
  (forall e,
     valid (validateSupabaseConfig (URL_protocol P) cfg) = true ->
     createClient P (url cfg) (anonKey cfg) (clientOptions cfg) = Throw e ->
     initialize P cfg (start store)
     = (Return None,
        {| this := {| client := None;
                      initializationError := Some (caught_message e);
                      config := Some cfg |};
           AsyncStorage := store |})) /\
  (valid (validateSupabaseConfig (URL_protocol P) cfg) = false ->
   exists msg,
     msg <> [] /\
     initialize P cfg (start store)
     = (Return None,
        {| this := {| client := None;
                      initializationError := Some msg;
                      config := None |};
           AsyncStorage := store |})) /\
  (exists P' w c,
     reachable (only P') w /\ client (this w) = None /\
     fst (isInitialized w) = Return false /\ config (this w) = Some c).
Proof.
  repeat split.
  - intros e Hv Hk. unfold initialize.
    rewrite (initialize_with_accepted P _ cfg (start store) _
               eq_refl eq_refl eq_refl Hv), Hk.
    reflexivity.
  - intros Hv. eexists. split; [|unfold initialize;
      rewrite (initialize_with_refused P _ cfg (start store) _
                 eq_refl eq_refl eq_refl Hv); reflexivity].
    apply string_or_nonempty. apply JS_cons_nonempty.
  - exists example_platform,
      (perform example_platform
         (CallInitialize (config_of "https://x.supabase.co" "throw")) (start ∅)),
      (config_of "https://x.supabase.co" "throw").
    split; [apply reachable_call; [reflexivity | apply reachable_start]|].
    vm_compute. repeat split.
Qed.

(** The constructor throws on an accepted configuration; the configuration
    stays stored. *)
Lemma config_kept_on_construction_failure_witness :
  let cfg := config_of "https://x.supabase.co" "throw" in
  initialize example_platform cfg (start ∅)
  = (Return None,
     {| this := {| client := None;
                   initializationError := Some (JS "boom");
                   config := Some cfg |};
        AsyncStorage := ∅ |}).
Proof.
  intros cfg.
  exact (proj1 (config_kept_on_construction_failure example_platform ∅ cfg)
               (ThrownError (Error (JS "boom"))) eq_refl eq_refl).
Defined.

(** ** C7: [reset] *)

(** C7, as amended.  After [reset], from any world, the client, the recorded
    error and the stored configuration are empty and the store is untouched:
    the holder is the one the module started with, [isInitialized] returns
    false and [getInitializationError] returns empty.  A following
    [initialize] with a configuration the validator accepts returns the
    client the SDK constructor returns for it, if the constructor returns
    one, and the holder is then initialized with no error recorded. *)
Theorem reset_clears_all_state (P : Platform) (w : World) :
  fst (reset w) = Return tt /\
  client (this (snd (reset w))) = None /\
  initializationError (this (snd (reset w))) = None /\
  config (this (snd (reset w))) = None /\
  snd (reset w) = start (AsyncStorage w) /\
  fst (isInitialized (snd (reset w))) = Return false /\
  fst (getInitializationError (snd (reset w))) = Return None /\
  (forall cfg cl,
     valid (validateSupabaseConfig (URL_protocol P) cfg) = true ->
     createClient P (url cfg) (anonKey cfg) (clientOptions cfg) = Return cl ->
     initialize P cfg (snd (reset w))
     = (Return (Some cl),
        {| this := {| client := Some cl;
                      initializationError := None;
                      config := Some cfg |};
           AsyncStorage := AsyncStorage w |}) /\
     fst (isInitialized (snd (initialize P cfg (snd (reset w))))) = Return true).
Proof.
  repeat split.
  - unfold initialize.
    rewrite (initialize_with_accepted P _ cfg (snd (reset w)) _
               eq_refl eq_refl eq_refl H), H0.
    reflexivity.
  - unfold initialize.
    rewrite (initialize_with_accepted P _ cfg (snd (reset w)) _
               eq_refl eq_refl eq_refl H), H0.
    reflexivity.
Qed.

(** A holder locked by a failure initializes again after [reset]. *)
Lemma reset_clears_all_state_witness :
  let locked := snd (initialize example_platform (config_of "not-a-url" "abc123")
                                (start example_store)) in
  let cfg := config_of "https://x.supabase.co" "abc123" in
  initialize example_platform cfg (snd (reset locked))
  = (Return (Some (ClientObject 6)),
     {| this := {| client := Some (ClientObject 6);
                   initializationError := None;
                   config := Some cfg |};
        AsyncStorage := example_store |}).
Proof.
  intros locked cfg.
  exact (proj1 (proj2 (proj2 (proj2 (proj2 (proj2 (proj2 (proj2
           (reset_clears_all_state example_platform locked))))))) cfg
           (ClientObject 6) eq_refl eq_refl)).
Defined.

(** C7 as stated fails where the SDK constructor throws on a configuration
    the validator accepts: after [reset], [initialize] with that valid
    configuration returns empty and the holder is not initialized. *)
Lemma initialize_after_reset_can_fail :
  let cfg := config_of "https://x.supabase.co" "throw" in
  let w := snd (reset (start ∅)) in
  valid (validateSupabaseConfig (URL_protocol example_platform) cfg) = true /\
  fst (initialize example_platform cfg w) = Return None /\
  fst (isInitialized (snd (initialize example_platform cfg w))) = Return false.
Proof. vm_compute. repeat split. Qed.

(** ** C8: the settings the client is constructed with *)

(** C8, as amended.  When the guards let the call through and the validator
    accepts the configuration, [initialize] calls the SDK constructor once,
    with the configuration's url and key and with these options: the
    caller's storage adapter if there is one and the [AsyncStorage] adapter
    if not; the caller's schema if there is one and it is not the empty
    string, and [public] if not; the caller's heartbeat interval if there is
    one and it is neither zero nor [NaN], and 30000 if not; the caller's
    auto-refresh, persist and detect-in-url flags where given, and true,
    true and false where not.  The call's outcome is the constructor's. *)
Theorem initialize_construction_settings (P : Platform) (cfg : SupabaseConfig)
    (w : World) :
  client (this w) = None ->
  truthy_field (initializationError (this w)) = false ->
  valid (validateSupabaseConfig (URL_protocol P) cfg) = true ->
  initialize P cfg w
  = match createClient P (url cfg) (anonKey cfg) (clientOptions cfg) with
    | Return cl => (Return (Some cl), succeeded w cfg cl)
    | Throw e => (Return None, failed w (Some cfg) (caught_message e))
    end /\
  auth_storage (auth (clientOptions cfg))
  = match storage cfg with
    | Some adapter => adapter
    | None => AsyncStorageAdapter
    end /\
  db_schema (db (clientOptions cfg))
  = match schema cfg with
    | Some (c :: s) => c :: s
    | Some [] | None => JS "public"
    end /\
  heartbeatIntervalMs (realtime (clientOptions cfg))
  = match realtimeHeartbeatIntervalMs cfg with
    | Some (Num q) => if Qeq_bool q 0 then Num (inject_Z 30000) else Num q
    | Some (Infinity negative) => Infinity negative
    | Some NaN | None => Num (inject_Z 30000)
    end /\
  auth_autoRefreshToken (auth (clientOptions cfg))
  = match autoRefreshToken cfg with Some b => b | None => true end /\
  auth_persistSession (auth (clientOptions cfg))
  = match persistSession cfg with Some b => b | None => true end /\
  auth_detectSessionInUrl (auth (clientOptions cfg))
  = match detectSessionInUrl cfg with Some b => b | None => false end.
Proof.
  intros Hc He Hv. split.
  { unfold initialize.
    apply (initialize_with_accepted P _ cfg w _ Hc He eq_refl Hv). }
  destruct cfg as [u k st sc hb ar ps ds]; simpl.
  destruct st as [adapter|], sc as [[|c s]|], hb as [[|negative|q]|], ar, ps, ds;
    simpl; try destruct (Qeq_bool q 0); repeat split.
Qed.

(** A heartbeat of 15000 ms (15 s) reaches the constructor. *)
Lemma initialize_construction_settings_witness :
  let cfg := {| url := JString (JS "https://x.supabase.co");
                anonKey := JString (JS "abc123");
                storage := Some (CustomStorage 7);
                schema := Some (JS "app");
                realtimeHeartbeatIntervalMs := Some (Num (inject_Z 15000));
                autoRefreshToken := Some false;
                persistSession := None;
                detectSessionInUrl := None |} in
  initialize (probe_platform observe_heartbeat) cfg (start ∅)
  = (Return (Some (ClientObject 15)),
     succeeded (start ∅) cfg (ClientObject 15)).
Proof.
  intros cfg.
  exact (proj1 (initialize_construction_settings
                  (probe_platform observe_heartbeat) cfg (start ∅)
                  eq_refl eq_refl eq_refl)).
Defined.

(** C8 as stated fails for a heartbeat interval of zero and for an empty
    schema name, both supplied by the caller: the constructor is given
    30000 ms (30 s) and [public] ([||] replaces every falsy value). *)
Lemma initialize_replaces_falsy_settings :
  let cfg := {| url := JString (JS "https://x.supabase.co");
                anonKey := JString (JS "abc123");
                storage := None;
                schema := Some [];
                realtimeHeartbeatIntervalMs := Some (Num (inject_Z 0));
                autoRefreshToken := None;
                persistSession := None;
                detectSessionInUrl := None |} in
  valid (validateSupabaseConfig example_URL_protocol cfg) = true /\
  fst (initialize (probe_platform observe_heartbeat) cfg (start ∅))
  = Return (Some (ClientObject 30)) /\
  fst (initialize (probe_platform observe_schema_length) cfg (start ∅))
  = Return (Some (ClientObject (length (JS "public")))) /\
  heartbeatIntervalMs (realtime (clientOptions cfg)) = Num (inject_Z 30000) /\
  db_schema (db (clientOptions cfg)) = JS "public".
Proof. vm_compute. repeat split. Qed.

(** ** C4: the validator *)

Section ValidatorProofs.

Variable URL_protocol : jsstring -> option jsstring.

(** The code is the specification's procedure: the five checks in order,
    stopping at the first that fails. *)
Lemma validateSupabaseConfig_refines (cfg : SupabaseConfig) :
  validateSupabaseConfig URL_protocol cfg = validate_spec URL_protocol cfg.
Proof.
  unfold validateSupabaseConfig, validate_spec, rules_in_order, first_failure,
    passes, complaint, invalid, is_http_protocol.
  destruct (truthy (url cfg)); simpl; [|reflexivity].
  destruct (jstype_eqb (typeof (url cfg)) TString); simpl; [|reflexivity].
  destruct (truthy (anonKey cfg)); simpl; [|reflexivity].
  destruct (jstype_eqb (typeof (anonKey cfg)) TString); simpl; [|reflexivity].
  destruct (URL_protocol (string_value (url cfg))) as [p|]; [|reflexivity].
  destruct (jsstring_eqb p (JS "http:")), (jsstring_eqb p (JS "https:")); simpl;
    try reflexivity;
    destruct (Nat.eqb (length (trim (string_value (anonKey cfg)))) 0); simpl;
    try reflexivity;
    destruct (includes (string_value (anonKey cfg)) (JS "your_supabase_anon_key")),
             (includes (string_value (url cfg)) (JS "your-project"));
    reflexivity.
Qed.

Lemma first_failure_None_iff (rs : list rule) (cfg : SupabaseConfig) :
  first_failure URL_protocol rs cfg = None <->
  (forall r, In r rs -> passes URL_protocol r cfg = true).
Proof.
  induction rs as [|r rs IH]; simpl.
  - split; [intros _ r [] | reflexivity].
  - destruct (passes URL_protocol r cfg) eqn:Hp.
    + rewrite IH. split.
      * intros H r' [<- | Hin]; auto.
      * intros H r' Hin. apply H. right. exact Hin.
    + split; [discriminate|]. intros H.
      rewrite (H r (or_introl eq_refl)) in Hp. discriminate.
Qed.

(** Short-circuit: the checks before the first failure passed, and the
    checks after it are not looked at. *)
Lemma first_failure_at (before after : list rule) (r : rule) (cfg : SupabaseConfig) :
  (forall b, In b before -> passes URL_protocol b cfg = true) ->
  passes URL_protocol r cfg = false ->
  first_failure URL_protocol (before ++ r :: after) cfg = Some r.
Proof.
  induction before as [|b before IH]; simpl; intros Hb Hr.
  - rewrite Hr. reflexivity.
  - rewrite (Hb b (or_introl eq_refl)). apply IH; auto.
Qed.

Lemma complaint_nonempty (r : rule) (cfg : SupabaseConfig) :
  complaint URL_protocol r cfg <> [].
Proof.
  destruct r; simpl; try apply JS_cons_nonempty.
  destruct (URL_protocol _); apply JS_cons_nonempty.
Qed.

(** C4.  [validateSupabaseConfig] is a function of the configuration (and of
    the platform's [URL]) that runs the five checks of the specification in
    its order and stops at the first failure: url present and a string; key
    present and a string; url well-formed with scheme http or https; key not
    empty once trimmed; no placeholder in key or url.  The result is valid,
    with no error, exactly when every check passes; otherwise it is invalid
    and carries the non-empty message of the first check that failed,
    whatever the later checks would say.  In particular a url the platform
    does not read as http(s) (as [not-a-url]), an empty key, and a key or url
    holding its placeholder are refused. *)
Theorem validateSupabaseConfig_checks (cfg : SupabaseConfig) :
  validateSupabaseConfig URL_protocol cfg = validate_spec URL_protocol cfg /\
  (valid (validateSupabaseConfig URL_protocol cfg) = true <->
   forall r, In r rules_in_order -> passes URL_protocol r cfg = true) /\
  (valid (validateSupabaseConfig URL_protocol cfg) = true ->
   error (validateSupabaseConfig URL_protocol cfg) = None) /\
  (valid (validateSupabaseConfig URL_protocol cfg) = false ->
   exists msg, error (validateSupabaseConfig URL_protocol cfg) = Some msg /\
               msg <> []) /\
  (forall before r after,
     rules_in_order = before ++ r :: after ->
     (forall b, In b before -> passes URL_protocol b cfg = true) ->
     passes URL_protocol r cfg = false ->
     validateSupabaseConfig URL_protocol cfg
     = {| valid := false; error := Some (complaint URL_protocol r cfg) |}) /\
  (forall u,
     url cfg = JString u ->
     match URL_protocol u with
     | Some p => is_http_protocol p = false
     | None => True
     end ->
     valid (validateSupabaseConfig URL_protocol cfg) = false) /\
  (anonKey cfg = JString [] ->
   valid (validateSupabaseConfig URL_protocol cfg) = false) /\
  (forall k,
     anonKey cfg = JString k -> forallb isWhiteSpace k = true ->
     valid (validateSupabaseConfig URL_protocol cfg) = false) /\
  (forall u k,
     url cfg = JString u -> anonKey cfg = JString k ->
     includes k (JS "your_supabase_anon_key") = true \/
     includes u (JS "your-project") = true ->
     valid (validateSupabaseConfig URL_protocol cfg) = false).
Proof.
  assert (Hall : valid (validate_spec URL_protocol cfg) = true <->
                 forall r, In r rules_in_order -> passes URL_protocol r cfg = true).
  { rewrite <- first_failure_None_iff. unfold validate_spec.
    destruct (first_failure URL_protocol rules_in_order cfg); simpl;
      split; congruence. }
  assert (Hfail : forall r, In r rules_in_order ->
                    passes URL_protocol r cfg = false ->
                    valid (validate_spec URL_protocol cfg) = false).
  { intros r Hin Hp. apply not_true_is_false. intros E.
    rewrite (proj1 Hall E r Hin) in Hp. discriminate. }
  rewrite validateSupabaseConfig_refines.
  split; [reflexivity|].
  split; [exact Hall|].
  split.
  { unfold validate_spec.
    destruct (first_failure URL_protocol rules_in_order cfg); simpl; congruence. }
  split.
  { unfold validate_spec.
    destruct (first_failure URL_protocol rules_in_order cfg) as [r|]; simpl;
      [|discriminate].
    intros _. eexists. split; [reflexivity | apply complaint_nonempty]. }
  split.
  { intros before r after Hsplit Hb Hr. unfold validate_spec.
    rewrite Hsplit, (first_failure_at before after r cfg Hb Hr). reflexivity. }
  split.
  { intros u Hu Hp. apply (Hfail UrlWellFormedHttp); [simpl; tauto|].
    simpl. rewrite Hu. simpl. destruct (URL_protocol u); [exact Hp | reflexivity]. }
  split.
  { intros Hk. apply (Hfail KeyPresentAndString); [simpl; tauto|].
    simpl. rewrite Hk. reflexivity. }
  split.
  { intros k Hk Hws. apply (Hfail KeyNonEmptyTrimmed); [simpl; tauto|].
    simpl. rewrite Hk. simpl. apply trim_empty_iff in Hws. rewrite Hws.
    reflexivity. }
  intros u k Hu Hk Hph. apply (Hfail NoPlaceholder); [simpl; tauto|].
  simpl. rewrite Hu, Hk. simpl.
  destruct Hph as [-> | ->]; simpl; [reflexivity | apply andb_false_r].
Qed.

End ValidatorProofs.

(** [not-a-url] is refused on a platform whose [URL] finds no scheme in it. *)
Lemma validateSupabaseConfig_checks_witness :
  valid (validateSupabaseConfig example_URL_protocol
           (config_of "not-a-url" "abc123")) = false.
Proof.
  exact (proj1 (proj2 (proj2 (proj2 (proj2 (proj2
           (validateSupabaseConfig_checks example_URL_protocol
              (config_of "not-a-url" "abc123")))))))
           (JS "not-a-url") eq_refl I).
Defined.

(** ** C6: clearing the session cache *)

Lemma isSessionKey_spec (key : jsstring) :
  isSessionKey key = true <->
  exists sub,
    In sub [JS "supabase"; JS "auth"; JS "session"; JS "sb-"] /\
    exists a b, key = a ++ sub ++ b.
Proof.
  unfold isSessionKey. rewrite !orb_true_iff, !includes_spec. split.
  - intros [[[H | H] | H] | H]; eexists; (split; [|exact H]); simpl; tauto.
  - intros [sub [Hin H]]. simpl in Hin.
    destruct Hin as [<- | [<- | [<- | [<- | []]]]]; tauto.
Qed.

(** Deleting from a map those of its keys that satisfy [f]. *)
Lemma lookup_delete_filtered_keys (f : jsstring -> bool)
    (m : gmap jsstring jsstring) (k : jsstring) :
  foldr delete m (List.filter f (List.map fst (map_to_list m))) !! k
  = if f k then None else m !! k.
Proof.
  destruct (f k) eqn:Hf.
  - destruct (m !! k) as [v|] eqn:Hk.
    + apply lookup_foldr_delete. apply list_elem_of_In, filter_In.
      split; [|exact Hf]. apply in_map_iff. exists (k, v).
      split; [reflexivity|]. apply list_elem_of_In, elem_of_map_to_list. exact Hk.
    + destruct (decide (k ∈ List.filter f (List.map fst (map_to_list m)))) as [Hin|Hin].
      * apply lookup_foldr_delete. exact Hin.
      * rewrite lookup_foldr_delete_not_elem_of; assumption.
  - apply lookup_foldr_delete_not_elem_of.
    intros Hin. apply list_elem_of_In, filter_In in Hin. destruct Hin as [_ Hin].
    congruence.
Qed.

Lemma clearSessionCache_returns (P : Platform) (w : World) :
  fst (clearSessionCache P w) = Return tt /\
  this (snd (clearSessionCache P w)) = this w.
Proof.
  run_holder. destruct (client (this w)) as [cl|]; simpl; [|split; reflexivity].
  unfold client_auth_signOut, AsyncStorage_getAllKeys, AsyncStorage_multiRemove.
  destruct (auth_signOut P cl (AsyncStorage w)) as [[[]|e] store1]; simpl;
    [|split; reflexivity].
  destruct (getAllKeys_rejects P store1) as [e|]; simpl; [split; reflexivity|].
  destruct (Nat.ltb 0 _); simpl; [|split; reflexivity].
  destruct (multiRemove_rejects P _ store1) as [[e rest]|]; simpl; split; reflexivity.
Qed.

(** The store after a run in which nothing failed. *)
Lemma clearSessionCache_store (P : Platform) (w : World)
    (cl : SupabaseClientType) (store1 : gmap jsstring jsstring) :
  client (this w) = Some cl ->
  auth_signOut P cl (AsyncStorage w) = (Return tt, store1) ->
  getAllKeys_rejects P store1 = None ->
  multiRemove_rejects P (sessionKeys_of store1) store1 = None ->
  AsyncStorage (snd (clearSessionCache P w))
  = foldr delete store1 (sessionKeys_of store1).
Proof.
  intros Hc Hs Hg Hm. run_holder. rewrite Hc. simpl.
  unfold client_auth_signOut, AsyncStorage_getAllKeys, AsyncStorage_multiRemove.
  rewrite Hs. simpl. rewrite Hg. simpl.
  fold (sessionKeys_of store1).
  destruct (sessionKeys_of store1) as [|k ks] eqn:E; simpl; [reflexivity|].
  rewrite Hm. reflexivity.
Qed.

(** C6.  [clearSessionCache] returns on every world and every platform,
    whether sign-out, key enumeration or deletion reject or not, and leaves
    the holder as it is.  On a holder with a stored client, when none of the
    three rejects, it signs out and then deletes from the store left by
    sign-out exactly the keys that contain one of [supabase], [auth],
    [session], [sb-]; every other key keeps its value.  With the keys
    [sb-access-token], [user-settings], [supabase.auth.token], [theme]
    stored, the first and the third go and the other two stay; with a store
    whose batch delete rejects, the call still returns. *)
Theorem clearSessionCache_contract :
  (forall P w,
     fst (clearSessionCache P w) = Return tt /\
     this (snd (clearSessionCache P w)) = this w) /\
  (forall key,
     isSessionKey key = true <->
     exists sub,
       In sub [JS "supabase"; JS "auth"; JS "session"; JS "sb-"] /\
       exists a b, key = a ++ sub ++ b) /\
  (forall P w cl store1,
     client (this w) = Some cl ->
     auth_signOut P cl (AsyncStorage w) = (Return tt, store1) ->
     getAllKeys_rejects P store1 = None ->
     multiRemove_rejects P (sessionKeys_of store1) store1 = None ->
     forall key,
       AsyncStorage (snd (clearSessionCache P w)) !! key
       = if isSessionKey key then None else store1 !! key) /\
  (let w := snd (initialize example_platform
                   (config_of "https://x.supabase.co" "abc123")
                   (start example_store)) in
   clearSessionCache example_platform w
   = (Return tt,
      {| this := this w;
         AsyncStorage := list_to_map [(JS "user-settings", JS "dark");
                                      (JS "theme", JS "blue")] |})) /\
  (let w := snd (initialize failing_store_platform
                   (config_of "https://x.supabase.co" "abc123")
                   (start example_store)) in
   clearSessionCache failing_store_platform w = (Return tt, w)).
Proof.
  split; [apply clearSessionCache_returns|].
  split; [apply isSessionKey_spec|].
  split.
  { intros P w cl store1 Hc Hs Hg Hm key.
    rewrite (clearSessionCache_store P w cl store1 Hc Hs Hg Hm).
    apply lookup_delete_filtered_keys. }
  split; vm_compute; reflexivity.
Qed.

(** The specification's four keys, through the general statement. *)
Lemma clearSessionCache_contract_witness :
  let w := snd (initialize example_platform
                  (config_of "https://x.supabase.co" "abc123")
                  (start example_store)) in
  let after := AsyncStorage (snd (clearSessionCache example_platform w)) in
  after !! JS "sb-access-token" = None /\
  after !! JS "user-settings" = Some (JS "dark") /\
  after !! JS "supabase.auth.token" = None /\
  after !! JS "theme" = Some (JS "blue").
Proof.
  intros w after.
  pose proof (proj1 (proj2 (proj2 clearSessionCache_contract))
                example_platform w (ClientObject 6) example_store
                eq_refl eq_refl eq_refl eq_refl) as H.
  exact (conj (H (JS "sb-access-token"))
           (conj (H (JS "user-settings"))
              (conj (H (JS "supabase.auth.token")) (H (JS "theme"))))).
Defined.

(** ** C9: a client and an error together *)

(** Where [initialize] can leave the world. *)
Lemma initialize_world (P : Platform) (cfg : SupabaseConfig) (w : World) :
  snd (initialize P cfg w) = w \/
  (client (this w) = None /\
   truthy_field (initializationError (this w)) = false /\
   ((exists msg, msg <> [] /\
       snd (initialize P cfg w) = failed w (config (this w)) msg) \/
    (exists cl, snd (initialize P cfg w) = succeeded w cfg cl) \/
    (exists e,
       createClient P (url cfg) (anonKey cfg) (clientOptions cfg) = Throw e /\
       snd (initialize P cfg w) = failed w (Some cfg) (caught_message e)))).
Proof.
  unfold initialize.
  destruct (client (this w)) as [cl|] eqn:Hc.
  { left. rewrite (initialize_with_stored _ _ _ _ _ Hc). reflexivity. }
  destruct (truthy_field (initializationError (this w))) eqn:He.
  { left. rewrite (initialize_with_locked _ _ _ _ Hc He). reflexivity. }
  right. split; [reflexivity|]. split; [reflexivity|].
  destruct (valid (validateSupabaseConfig (URL_protocol P) cfg)) eqn:Hv.
  - rewrite (initialize_with_accepted P _ cfg w _ Hc He eq_refl Hv).
    destruct (createClient P _ _ _) as [cl|e]; simpl; eauto.
  - rewrite (initialize_with_refused P _ cfg w _ Hc He eq_refl Hv). simpl.
    left. eexists. split; [|reflexivity].
    apply string_or_nonempty, JS_cons_nonempty.
Qed.

(** What the guards of [initialize] do keep: a stored client comes with a
    falsy recorded error (null or the empty string), in every reachable
    world. *)
Lemma reachable_client_falsy_error (env : Platform -> Prop) (w : World) :
  reachable env w ->
  client (this w) <> None ->
  truthy_field (initializationError (this w)) = false.
Proof.
  induction 1 as [store | P w c HP Hr IH]; [intros H; exfalso; apply H; reflexivity|].
  destruct c as [cfg| | | | |]; simpl.
  - destruct (initialize_world P cfg w)
      as [-> | [Hc [He [[msg [_ ->]] | [[cl ->] | [e [_ ->]]]]]]]; simpl;
      try exact IH; try (intros H; exfalso; apply H; exact Hc).
    intros _. exact He.
  - rewrite getClient_world. exact IH.
  - exact IH.
  - exact IH.
  - rewrite (proj2 (clearSessionCache_returns P w)). exact IH.
  - intros H. exfalso. apply H. reflexivity.
Qed.

Lemma reachable_run_calls (P : Platform) (calls : list Call) (w : World) :
  reachable (only P) w -> reachable (only P) (run_calls P calls w).
Proof.
  revert w. induction calls as [|c calls IH]; intros w Hr; [exact Hr|].
  unfold run_calls. simpl. apply IH. apply reachable_call; [reflexivity | exact Hr].
Qed.

(** C9.  A client and a recorded error are meant never to be set together,
    and the code sets both after a failure without a message, by the retry
    that line 62 rules out.  The SDK constructor throws an [Error] whose
    message is the empty string and the [catch] clause records it; the guard
    of line 63 reads the empty string as no error and lets the next
    [initialize] through; the client is stored, and the success path leaves
    the recorded string where it is.  In the world reached, [isInitialized]
    returns true while [getInitializationError] returns a string, not
    null. *)
Lemma client_and_empty_error_both_set :
  let w := run_calls example_platform
             [CallInitialize (config_of "https://x.supabase.co" "throw-empty");
              CallInitialize (config_of "https://x.supabase.co" "abc123")]
             (start ∅) in
  reachable (only example_platform) w /\
  client (this w) = Some (ClientObject 6) /\
  initializationError (this w) = Some [] /\
  fst (isInitialized w) = Return true /\
  fst (getInitializationError w) = Return (Some []) /\
  fst (getInitializationError w) <> Return None.
Proof.
  intros w. split.
  - apply reachable_run_calls, reachable_start.
  - vm_compute. repeat split. discriminate.
Qed.

(** * Further properties of the code *)

(** ** The error classes *)

(** X1.  The six error classes are told apart by their code and by their
    name: two errors with the same code, or the same name, are of the same
    class, whatever their messages and causes.  Each keeps the message and
    the cause it was constructed with, always carries a code, and is named
    differently from the base class, which takes its code from the caller. *)
Theorem error_classes_distinguished (c c' : SupabaseErrorClass)
    (m m' : jsstring) (o o' : option jsval) :
  (code (new_error c m o) = code (new_error c' m' o') -> c = c') /\
  (name (new_error c m o) = name (new_error c' m' o') -> c = c') /\
  message (new_error c m o) = m /\
  originalError (new_error c m o) = o /\
  code (new_error c m o) <> None /\
  name (new_error c m o) <> name (SupabaseError m' None o') /\
  (forall k, code (SupabaseError m k o) = k /\
             message (SupabaseError m k o) = m /\
             originalError (SupabaseError m k o) = o).
Proof.
  split.
  { destruct c, c'; intros H; try reflexivity; vm_compute in H; discriminate H. }
  split.
  { destruct c, c'; intros H; try reflexivity; vm_compute in H; discriminate H. }
  split; [destruct c; reflexivity|].
  split; [destruct c; reflexivity|].
  split; [destruct c; discriminate|].
  split; [destruct c; vm_compute; discriminate|].
  intros k. repeat split.
Qed.

(** ** What [initialize] returns and what it leaves *)

Lemma initialize_with_outcome (P : Platform)
    (validate : SupabaseConfig -> outcome ValidationResult)
    (cfg : SupabaseConfig) (w : World) :
  (exists cl,
     fst (initialize_with P validate cfg w) = Return (Some cl) /\
     client (this (snd (initialize_with P validate cfg w))) = Some cl) \/
  (fst (initialize_with P validate cfg w) = Return None /\
   client (this (snd (initialize_with P validate cfg w))) = None /\
   exists msg,
     initializationError (this (snd (initialize_with P validate cfg w)))
     = Some msg).
Proof.
  destruct (client (this w)) as [cl|] eqn:Hc.
  { left. exists cl. rewrite (initialize_with_stored P validate cfg w cl Hc).
    split; [reflexivity | exact Hc]. }
  destruct (truthy_field (initializationError (this w))) eqn:He.
  { right. rewrite (initialize_with_locked P validate cfg w Hc He). simpl.
    split; [reflexivity|]. split; [exact Hc|].
    destruct (initializationError (this w)) as [msg|]; [eauto | discriminate]. }
  destruct (validate cfg) as [v|e] eqn:Hv.
  - destruct (valid v) eqn:Ht.
    + rewrite (initialize_with_accepted P validate cfg w v Hc He Hv Ht).
      destruct (createClient P _ _ _) as [cl|e]; simpl.
      * left. eauto.
      * right. split; [reflexivity|]. split; [exact Hc | eauto].
    + rewrite (initialize_with_refused P validate cfg w v Hc He Hv Ht). simpl.
      right. split; [reflexivity|]. split; [exact Hc | eauto].
  - rewrite (initialize_with_validator_throws P validate cfg w e Hc He Hv). simpl.
    right. split; [reflexivity|]. split; [exact Hc | eauto].
Qed.

(** X2.  What [initialize] returns tells the state it leaves, on every
    world, for every validator and platform.  It returns a client or empty,
    nothing else.  When it returns a client, that client is stored:
    [isInitialized] is then true and [getClient] returns the same client.
    When it returns empty, no client is stored and an error string is
    recorded, so [getInitializationError] does not return null and
    [getClient] throws. *)
Theorem initialize_result_tells_state (P : Platform)
    (validate : SupabaseConfig -> outcome ValidationResult)
    (cfg : SupabaseConfig) (w : World) :
  ((exists cl, fst (initialize_with P validate cfg w) = Return (Some cl)) \/
   fst (initialize_with P validate cfg w) = Return None) /\
  (forall cl,
     fst (initialize_with P validate cfg w) = Return (Some cl) ->
     fst (isInitialized (snd (initialize_with P validate cfg w))) = Return true /\
     fst (getClient (snd (initialize_with P validate cfg w))) = Return cl) /\
  (fst (initialize_with P validate cfg w) = Return None ->
   fst (isInitialized (snd (initialize_with P validate cfg w))) = Return false /\
   (exists msg,
      fst (getInitializationError (snd (initialize_with P validate cfg w)))
      = Return (Some msg)) /\
   (exists e, fst (getClient (snd (initialize_with P validate cfg w))) = Throw e)).
Proof.
  pose proof (initialize_with_outcome P validate cfg w) as H.
  destruct (initialize_with P validate cfg w) as [r w']. simpl in *.
  unfold isInitialized, getClient, getInitializationError, get_client,
    get_initializationError, throw, mbind, M_bind, mret, M_ret.
  destruct H as [[cl [Hr Hc]] | [Hr [Hc [msg Hm]]]]; rewrite Hr, Hc; simpl.
  - split; [left; eauto|]. split.
    + intros cl' Hr'. injection Hr' as <-. split; reflexivity.
    + discriminate.
  - split; [right; reflexivity|]. split.
    + discriminate.
    + intros _. rewrite Hm. eauto.
Qed.

(** A refused configuration: empty is returned and the error can be read. *)
Lemma initialize_result_tells_state_witness :
  let r := initialize example_platform (config_of "ftp://x.supabase.co" "abc123")
             (start ∅) in
  fst (isInitialized (snd r)) = Return false /\
  (exists msg, fst (getInitializationError (snd r)) = Return (Some msg)) /\
  (exists e, fst (getClient (snd r)) = Throw e).
Proof.
  intros r.
  exact (proj2 (proj2 (initialize_result_tells_state example_platform
                         (fun c => Return (validateSupabaseConfig
                                             example_URL_protocol c))
                         (config_of "ftp://x.supabase.co" "abc123") (start ∅)))
               eq_refl).
Defined.

(** ** Only [reset] changes an initialized holder *)

Lemma perform_keeps_holder (P : Platform) (c : Call) (w : World)
    (cl : SupabaseClientType) :
  client (this w) = Some cl ->
  is_reset c = false ->
  this (perform P c w) = this w.
Proof.
  intros Hc Hr. destruct c as [cfg| | | | |]; simpl.
  - unfold initialize. rewrite (initialize_with_stored P _ cfg w cl Hc). reflexivity.
  - rewrite getClient_world. reflexivity.
  - reflexivity.
  - reflexivity.
  - apply clearSessionCache_returns.
  - discriminate.
Qed.

(** X3.  Once a client is stored, no call other than [reset] changes the
    holder, on whatever platform each call runs: through every sequence of
    [initialize], [getClient], [isInitialized], [getInitializationError] and
    [clearSessionCache] calls the stored client, the recorded error and the
    stored configuration stay the same, and [getClient] at the end still
    returns the client stored at the beginning. *)
Theorem holder_fixed_once_initialized (trace : list (Platform * Call))
    (w : World) (cl : SupabaseClientType) :
  client (this w) = Some cl ->
  forallb (fun pc => negb (is_reset (snd pc))) trace = true ->
  this (run_trace trace w) = this w /\
  fst (getClient (run_trace trace w)) = Return cl.
Proof.
  intros Hc Ht.
  assert (H : this (run_trace trace w) = this w).
  { revert w Hc. induction trace as [|[P c] trace IH]; intros w Hc; [reflexivity|].
    simpl in Ht. apply andb_true_iff in Ht as [H1 H2].
    apply negb_true_iff in H1. simpl in H1.
    unfold run_trace. simpl.
    pose proof (perform_keeps_holder P c w cl Hc H1) as Hk.
    fold (run_trace trace (perform P c w)).
    rewrite (IH H2 (perform P c w)); [exact Hk|].
    rewrite Hk. exact Hc. }
  split; [exact H|].
  run_holder. rewrite H, Hc. reflexivity.
Qed.

(** A second configuration, a failing store and a cache clearing leave the
    first client in place. *)
Lemma holder_fixed_once_initialized_witness :
  let w := snd (initialize example_platform
                  (config_of "https://x.supabase.co" "abc123")
                  (start example_store)) in
  let trace :=
    [(example_platform, CallInitialize (config_of "https://y.supabase.co" "throw"));
     (failing_store_platform, CallClearSessionCache);
     (example_platform, CallGetClient);
     (example_platform, CallInitialize (config_of "not-a-url" ""))] in
  this (run_trace trace w) = this w /\
  fst (getClient (run_trace trace w)) = Return (ClientObject 6).
Proof.
  intros w trace.
  exact (holder_fixed_once_initialized trace w (ClientObject 6) eq_refl eq_refl).
Defined.

(** ** Where the stored configuration and client come from *)

(** An accepted configuration has a non-empty string for url and for key. *)
Lemma accepted_config_strings (U : jsstring -> option jsstring)
    (cfg : SupabaseConfig) :
  valid (validateSupabaseConfig U cfg) = true ->
  exists u k,
    url cfg = JString u /\ anonKey cfg = JString k /\ u <> [] /\ k <> [].
Proof.
  unfold validateSupabaseConfig.
  destruct (url cfg) as [| |b|n|u|r]; simpl; try discriminate;
    try (destruct b; discriminate);
    try (destruct (truthy_number n); discriminate).
  destruct u as [|c u]; simpl; [discriminate|].
  destruct (anonKey cfg) as [| |b|n|k|r]; simpl; try discriminate;
    try (destruct b; discriminate);
    try (destruct (truthy_number n); discriminate).
  destruct k as [|d k]; simpl; [discriminate|].
  intros _. exists (c :: u), (d :: k). repeat split; discriminate.
Qed.

(** One [initialize], as a step on the holder. *)
Lemma initialize_step (P : Platform) (cfg : SupabaseConfig) (w : World) :
  this (snd (initialize P cfg w)) = this w \/
  (client (this w) = None /\
   ((exists msg,
       this (snd (initialize P cfg w))
       = {| client := None; initializationError := Some msg;
            config := config (this w) |}) \/
    (valid (validateSupabaseConfig (URL_protocol P) cfg) = true /\
     ((exists cl,
         createClient P (url cfg) (anonKey cfg) (clientOptions cfg) = Return cl /\
         this (snd (initialize P cfg w))
         = {| client := Some cl;
              initializationError := initializationError (this w);
              config := Some cfg |}) \/
      (exists msg,
         this (snd (initialize P cfg w))
         = {| client := None; initializationError := Some msg;
              config := Some cfg |}))))).
Proof.
  unfold initialize.
  destruct (client (this w)) as [cl|] eqn:Hc.
  { left. rewrite (initialize_with_stored _ _ _ _ _ Hc). reflexivity. }
  destruct (truthy_field (initializationError (this w))) eqn:He.
  { left. rewrite (initialize_with_locked _ _ _ _ Hc He). reflexivity. }
  right. split; [reflexivity|].
  destruct (valid (validateSupabaseConfig (URL_protocol P) cfg)) eqn:Hv.
  - right. split; [reflexivity|].
    rewrite (initialize_with_accepted P _ cfg w _ Hc He eq_refl Hv).
    destruct (createClient P _ _ _) as [cl|e]; simpl.
    + left. exists cl. split; reflexivity.
    + right. rewrite Hc. eauto.
  - left. rewrite (initialize_with_refused P _ cfg w _ Hc He eq_refl Hv). simpl.
    rewrite Hc. eauto.
Qed.

(** What the holder stores was checked and built by the package. *)
Definition well_sourced (env : Platform -> Prop) (h : Holder) : Prop :=
  (forall c, config h = Some c ->
     exists P, env P /\ valid (validateSupabaseConfig (URL_protocol P) c) = true) /\
  (forall cl, client h = Some cl ->
     exists P c, env P /\ config h = Some c /\
       createClient P (url c) (anonKey c) (clientOptions c) = Return cl).

Lemma reachable_well_sourced (env : Platform -> Prop) (w : World) :
  reachable env w -> well_sourced env (this w).
Proof.
  induction 1 as [store | P w c HP Hr IH].
  { split; simpl; discriminate. }
  destruct c as [cfg| | | | |]; simpl.
  - destruct (initialize_step P cfg w)
      as [-> | [Hc [[msg ->] | [Hv [[cl [Hk ->]] | [msg ->]]]]]].
    + exact IH.
    + split; simpl; [apply IH | discriminate].
    + split; simpl.
      * intros c E. injection E as <-. eauto.
      * intros cl' E. injection E as <-. eauto.
    + split; simpl; [|discriminate].
      intros c E. injection E as <-. eauto.
  - rewrite getClient_world. exact IH.
  - exact IH.
  - exact IH.
  - rewrite (proj2 (clearSessionCache_returns P w)). exact IH.
  - split; simpl; discriminate.
Qed.

(** X4.  In every world reachable through the public calls, on whatever
    platforms, a stored configuration is one the validator accepted (so its
    url and key are non-empty strings), and a stored client is the one the
    SDK constructor returned for the stored configuration and the options
    derived from it.  In particular a client is never stored without its
    configuration. *)
Theorem stored_state_provenance (env : Platform -> Prop) (w : World) :
  reachable env w ->
  (forall c,
     config (this w) = Some c ->
     exists P u k,
       env P /\
       valid (validateSupabaseConfig (URL_protocol P) c) = true /\
       url c = JString u /\ anonKey c = JString k /\ u <> [] /\ k <> []) /\
  (forall cl,
     client (this w) = Some cl ->
     exists P c,
       env P /\ config (this w) = Some c /\
       createClient P (url c) (anonKey c) (clientOptions c) = Return cl).
Proof.
  intros Hr. destruct (reachable_well_sourced env w Hr) as [H1 H2].
  split; [|exact H2].
  intros c Hc. destruct (H1 c Hc) as [P [HP Hv]].
  destruct (accepted_config_strings _ c Hv) as [u [k H]].
  exists P, u, k. tauto.
Qed.

(** After a failed and a successful [initialize]: the stored client is the
    constructor's for the stored configuration. *)
Lemma stored_state_provenance_witness :
  let w := run_calls example_platform
             [CallInitialize (config_of "https://x.supabase.co" "throw-empty");
              CallInitialize (config_of "https://x.supabase.co" "abc123");
              CallClearSessionCache]
             (start example_store) in
  exists P c,
    only example_platform P /\ config (this w) = Some c /\
    createClient P (url c) (anonKey c) (clientOptions c)
    = Return (ClientObject 6).
Proof.
  intros w.
  exact (proj2 (stored_state_provenance (only example_platform) w
                  (reachable_run_calls example_platform _ _
                     (reachable_start (only example_platform) example_store)))
               (ClientObject 6) eq_refl).
Defined.

(** ** The message of a refused configuration *)

Lemma complaint_not_default (U : jsstring -> option jsstring) (r : rule)
    (cfg : SupabaseConfig) :
  complaint U r cfg <> JS "Invalid configuration".
Proof.
  destruct r; simpl; try (vm_compute; discriminate).
  destruct (U _); vm_compute; discriminate.
Qed.

Lemma refused_config_error (U : jsstring -> option jsstring)
    (cfg : SupabaseConfig) :
  valid (validateSupabaseConfig U cfg) = false ->
  exists c msg,
    error (validateSupabaseConfig U cfg) = Some (c :: msg) /\
    c :: msg <> JS "Invalid configuration".
Proof.
  rewrite validateSupabaseConfig_refines. unfold validate_spec.
  destruct (first_failure U rules_in_order cfg) as [r|]; simpl; [|discriminate].
  intros _. pose proof (complaint_nonempty U r cfg) as Hn.
  pose proof (complaint_not_default U r cfg) as Hd.
  destruct (complaint U r cfg) as [|c msg]; [congruence | eauto].
Qed.

(** X5.  When the holder is open (no client, no non-empty error) and the
    validator refuses the configuration, the validator's error string is
    what the holder records: [getInitializationError] then returns exactly
    that string and [getClient] throws a [SupabaseInitializationError] with
    it as message.  The string is never the fallback [Invalid configuration]
    of line 71, the stored configuration is left as it was, and the SDK
    constructor has no part in the result. *)
Theorem refusal_message_round_trip (P : Platform) (cfg : SupabaseConfig)
    (w : World) :
  client (this w) = None ->
  truthy_field (initializationError (this w)) = false ->
  valid (validateSupabaseConfig (URL_protocol P) cfg) = false ->
  exists msg,
    error (validateSupabaseConfig (URL_protocol P) cfg) = Some msg /\
    msg <> [] /\
    msg <> JS "Invalid configuration" /\
    initialize P cfg w = (Return None, failed w (config (this w)) msg) /\
    fst (getInitializationError (snd (initialize P cfg w))) = Return (Some msg) /\
    fst (getClient (snd (initialize P cfg w)))
    = Throw (ThrownError (SupabaseInitializationError msg None)) /\
    (forall P',
       URL_protocol P' = URL_protocol P ->
       initialize P' cfg w = initialize P cfg w).
Proof.
  intros Hc He Hv.
  destruct (refused_config_error _ cfg Hv) as [c [msg [Hm Hd]]].
  exists (c :: msg).
  assert (Hi : initialize P cfg w
               = (Return None, failed w (config (this w)) (c :: msg))).
  { unfold initialize.
    rewrite (initialize_with_refused P _ cfg w _ Hc He eq_refl Hv), Hm.
    reflexivity. }
  split; [exact Hm|]. split; [discriminate|]. split; [exact Hd|].
  split; [exact Hi|]. rewrite Hi. simpl.
  split; [reflexivity|]. split.
  { unfold getClient, get_client, get_initializationError, throw, mbind,
      M_bind, mret, M_ret. simpl. rewrite Hc. reflexivity. }
  intros P' HU. unfold initialize. rewrite HU.
  rewrite (initialize_with_refused P' _ cfg w _ Hc He eq_refl Hv), Hm.
  reflexivity.
Qed.

(** A key of blanks: the validator's message reaches [getClient]. *)
Lemma refusal_message_round_trip_witness :
  exists msg,
    error (validateSupabaseConfig example_URL_protocol
             (config_of "https://x.supabase.co" "   ")) = Some msg /\
    fst (getClient (snd (initialize example_platform
                           (config_of "https://x.supabase.co" "   ") (start ∅))))
    = Throw (ThrownError (SupabaseInitializationError msg None)).
Proof.
  destruct (refusal_message_round_trip example_platform
              (config_of "https://x.supabase.co" "   ") (start ∅)
              eq_refl eq_refl eq_refl)
    as [msg [H1 [_ [_ [_ [_ [H2 _]]]]]]].
  exists msg. split; [exact H1 | exact H2].
Defined.

(** ** When the session cache is not cleared *)

Ltac run_clear :=
  unfold clearSessionCache, try_catch, get_client, client_auth_signOut,
    AsyncStorage_getAllKeys, AsyncStorage_multiRemove, mbind, M_bind, mret,
    M_ret;
  simpl.

(** No session key in the store: [multiRemove] is not called. *)
Lemma clearSessionCache_nothing_to_delete (P : Platform) (w : World)
    (cl : SupabaseClientType) (store1 : gmap jsstring jsstring) :
  client (this w) = Some cl ->
  auth_signOut P cl (AsyncStorage w) = (Return tt, store1) ->
  getAllKeys_rejects P store1 = None ->
  sessionKeys_of store1 = [] ->
  clearSessionCache P w
  = (Return tt, {| this := this w; AsyncStorage := store1 |}).
Proof.
  intros Hc Hs Hg Hk. run_clear. rewrite Hc. simpl. rewrite Hs. simpl.
  rewrite Hg. simpl. fold (sessionKeys_of store1). rewrite Hk. reflexivity.
Qed.

(** X6.  The ways [clearSessionCache] gives up without a sign to the
    caller, each returning normally.  With no client stored it does nothing
    at all, so the store keeps its session keys.  When sign-out rejects, or
    sign-out succeeds and the key enumeration rejects, the package deletes
    nothing: the store is the one sign-out left.  When the store holds no
    session key the batch delete is not called.  When the batch delete
    rejects, the store is whatever the rejected delete left. *)
Theorem clearSessionCache_gives_up_silently (P : Platform) (w : World) :
  (client (this w) = None -> clearSessionCache P w = (Return tt, w)) /\
  (forall cl e store1,
     client (this w) = Some cl ->
     auth_signOut P cl (AsyncStorage w) = (Throw e, store1) ->
     clearSessionCache P w
     = (Return tt, {| this := this w; AsyncStorage := store1 |})) /\
  (forall cl e store1,
     client (this w) = Some cl ->
     auth_signOut P cl (AsyncStorage w) = (Return tt, store1) ->
     getAllKeys_rejects P store1 = Some e ->
     clearSessionCache P w
     = (Return tt, {| this := this w; AsyncStorage := store1 |})) /\
  (forall cl store1,
     client (this w) = Some cl ->
     auth_signOut P cl (AsyncStorage w) = (Return tt, store1) ->
     getAllKeys_rejects P store1 = None ->
     sessionKeys_of store1 = [] ->
     clearSessionCache P w
     = (Return tt, {| this := this w; AsyncStorage := store1 |})) /\
  (forall cl store1 e rest,
     client (this w) = Some cl ->
     auth_signOut P cl (AsyncStorage w) = (Return tt, store1) ->
     getAllKeys_rejects P store1 = None ->
     sessionKeys_of store1 <> [] ->
     multiRemove_rejects P (sessionKeys_of store1) store1 = Some (e, rest) ->
     clearSessionCache P w
     = (Return tt, {| this := this w; AsyncStorage := rest |})).
Proof.
  split; [apply clearSessionCache_no_client|].
  split.
  { intros cl e store1 Hc Hs. run_clear. rewrite Hc. simpl. rewrite Hs.
    reflexivity. }
  split.
  { intros cl e store1 Hc Hs Hg. run_clear. rewrite Hc. simpl. rewrite Hs.
    simpl. rewrite Hg. reflexivity. }
  split; [apply clearSessionCache_nothing_to_delete|].
  intros cl store1 e rest Hc Hs Hg Hk Hm. run_clear. rewrite Hc. simpl.
  rewrite Hs. simpl. rewrite Hg. simpl. fold (sessionKeys_of store1).
  destruct (sessionKeys_of store1) as [|k ks]; [congruence|]. simpl.
  rewrite Hm. reflexivity.
Qed.

(** Sign-out rejects: the call returns and the four keys are still there. *)
Lemma clearSessionCache_gives_up_silently_witness :
  let w := snd (initialize failing_signOut_platform
                  (config_of "https://x.supabase.co" "abc123")
                  (start example_store)) in
  clearSessionCache failing_signOut_platform w
  = (Return tt, {| this := this w; AsyncStorage := example_store |}).
Proof.
  intros w.
  exact (proj1 (proj2 (clearSessionCache_gives_up_silently
                         failing_signOut_platform w))
               (ClientObject 6)
               (ThrownError (Error (JS "network request failed")))
               example_store eq_refl eq_refl).
Defined.

(** ** Clearing twice *)

Lemma sessionKeys_of_nil_iff (m : gmap jsstring jsstring) :
  sessionKeys_of m = [] <->
  (forall k, isSessionKey k = true -> m !! k = None).
Proof.
  unfold sessionKeys_of. split.
  - intros E k Hk. destruct (m !! k) as [v|] eqn:Hm; [|reflexivity].
    exfalso.
    assert (Hin : In k (List.filter isSessionKey (List.map fst (map_to_list m)))).
    { apply filter_In. split; [|exact Hk]. apply in_map_iff. exists (k, v).
      split; [reflexivity|]. apply list_elem_of_In, elem_of_map_to_list.
      exact Hm. }
    rewrite E in Hin. exact Hin.
  - intros H.
    destruct (List.filter isSessionKey (List.map fst (map_to_list m)))
      as [|k ks] eqn:E; [reflexivity|].
    exfalso.
    assert (Hin : In k (List.filter isSessionKey (List.map fst (map_to_list m))))
      by (rewrite E; left; reflexivity).
    apply filter_In in Hin. destruct Hin as [Hin Hk].
    apply in_map_iff in Hin. destruct Hin as [[k' v] [<- Hin]].
    apply list_elem_of_In, elem_of_map_to_list in Hin. simpl in Hk.
    rewrite (H k' Hk) in Hin. discriminate.
Qed.

(** X7.  After a [clearSessionCache] in which nothing rejected, the store
    holds no session key: every entry left has a key without [supabase],
    [auth], [session] and [sb-] and the value it had after sign-out.  A second
    [clearSessionCache] then changes nothing, provided sign-out leaves that
    store alone and the key enumeration does not reject; the batch delete is
    not called again, so it cannot fail the second time. *)
Theorem clearSessionCache_twice (P : Platform) (w : World)
    (cl : SupabaseClientType) (store1 : gmap jsstring jsstring) :
  client (this w) = Some cl ->
  auth_signOut P cl (AsyncStorage w) = (Return tt, store1) ->
  getAllKeys_rejects P store1 = None ->
  multiRemove_rejects P (sessionKeys_of store1) store1 = None ->
  sessionKeys_of (AsyncStorage (snd (clearSessionCache P w))) = [] /\
  (forall k v,
     AsyncStorage (snd (clearSessionCache P w)) !! k = Some v ->
     isSessionKey k = false /\ store1 !! k = Some v) /\
  (auth_signOut P cl (AsyncStorage (snd (clearSessionCache P w)))
   = (Return tt, AsyncStorage (snd (clearSessionCache P w))) ->
   getAllKeys_rejects P (AsyncStorage (snd (clearSessionCache P w))) = None ->
   clearSessionCache P (snd (clearSessionCache P w))
   = (Return tt, snd (clearSessionCache P w))).
Proof.
  intros Hc Hs Hg Hm.
  pose proof (clearSessionCache_store P w cl store1 Hc Hs Hg Hm) as Hst.
  pose proof (proj2 (clearSessionCache_returns P w)) as Hth.
  destruct (snd (clearSessionCache P w)) as [h' store'] eqn:E. simpl in *.
  subst h'.
  assert (Hl : forall k, store' !! k = if isSessionKey k then None else store1 !! k).
  { intros k. rewrite Hst. apply lookup_delete_filtered_keys. }
  assert (Hnil : sessionKeys_of store' = []).
  { apply sessionKeys_of_nil_iff. intros k Hk. rewrite Hl, Hk. reflexivity. }
  split; [exact Hnil|]. split.
  - intros k v Hkv. rewrite Hl in Hkv.
    destruct (isSessionKey k); [discriminate | tauto].
  - intros Hs' Hg'.
    apply (clearSessionCache_nothing_to_delete P
             {| this := this w; AsyncStorage := store' |} cl store' Hc Hs' Hg' Hnil).
Qed.

(** The specification's store, cleared twice. *)
Lemma clearSessionCache_twice_witness :
  let w := snd (initialize example_platform
                  (config_of "https://x.supabase.co" "abc123")
                  (start example_store)) in
  let w1 := snd (clearSessionCache example_platform w) in
  sessionKeys_of (AsyncStorage w1) = [] /\
  clearSessionCache example_platform w1 = (Return tt, w1).
Proof.
  intros w w1.
  pose proof (clearSessionCache_twice example_platform w (ClientObject 6)
                example_store eq_refl eq_refl eq_refl eq_refl) as H.
  exact (conj (proj1 H) (proj2 (proj2 H) eq_refl eq_refl)).
Defined.

(** ** The hook *)

Ltac run_hook :=
  unfold useSupabase, useMemo, getClientSafely_of, getSupabaseClient,
    isSupabaseInitialized, getClient, isInitialized, try_catch, throw,
    get_client, get_initializationError, mbind, M_bind, mret, M_ret;
  simpl.

(** The first render, by the state of the holder. *)
Lemma useSupabase_mount_no_client (w : World) :
  client (this w) = None ->
  useSupabase None w
  = (Throw (ThrownError
              (SupabaseInitializationError hook_not_initialized_message None)),
     w).
Proof.
  intros Hc. run_hook. rewrite Hc. reflexivity.
Qed.

Lemma useSupabase_mount_client (w : World) (cl : SupabaseClientType) :
  client (this w) = Some cl ->
  useSupabase None w
  = (Return ({| result_client := cl;
                result_isInitialized := true;
                getClientSafely := getClientSafely_of true |},
             {| cell_isInitialized := mkMemo tt true;
                cell_client := mkMemo true cl;
                cell_getClientSafely := mkMemo true (getClientSafely_of true) |}),
     w).
Proof.
  intros Hc. run_hook. rewrite Hc. simpl. rewrite Hc. reflexivity.
Qed.

(** X8.  The first render of a component that calls [useSupabase] throws
    exactly when the holder stores no client; it then throws a
    [SupabaseInitializationError] with the code [INITIALIZATION_ERROR] and
    the hook's own message, which is not the message of [getClient].  When it
    returns, the result holds the stored client and [isInitialized] is true:
    the hook does not return a result whose [isInitialized] is false.  The
    render does not change the world either way. *)
Theorem useSupabase_first_render (w : World) :
  snd (useSupabase None w) = w /\
  ((exists e, fst (useSupabase None w) = Throw e) <-> client (this w) = None) /\
  (client (this w) = None ->
   exists err,
     fst (useSupabase None w) = Throw (ThrownError err) /\
     name err = JS "SupabaseInitializationError" /\
     code err = Some (JS "INITIALIZATION_ERROR") /\
     message err = hook_not_initialized_message /\
     message err <> not_initialized_message) /\
  (forall r cells,
     fst (useSupabase None w) = Return (r, cells) ->
     result_isInitialized r = true /\
     client (this w) = Some (result_client r) /\
     getClientSafely r = getClientSafely_of true).
Proof.
  destruct (client (this w)) as [cl|] eqn:Hc.
  - rewrite (useSupabase_mount_client w cl Hc). simpl.
    split; [reflexivity|]. split.
    { split; [intros [e He]; discriminate | discriminate]. }
    split; [discriminate|].
    intros r cells E. injection E as <- _. repeat split.
  - rewrite (useSupabase_mount_no_client w Hc). simpl.
    split; [reflexivity|]. split.
    { split; [reflexivity | eauto]. }
    split.
    { intros _. eexists. split; [reflexivity|]. repeat split.
      vm_compute. discriminate. }
    intros r cells E. discriminate.
Qed.

(** On an initialized holder the first render returns the stored client. *)
Lemma useSupabase_first_render_witness :
  let w := snd (initialize example_platform
                  (config_of "https://x.supabase.co" "abc123") (start ∅)) in
  let r := {| result_client := ClientObject 6;
              result_isInitialized := true;
              getClientSafely := getClientSafely_of true |} in
  result_isInitialized r = true /\
  client (this w) = Some (result_client r) /\
  getClientSafely r = getClientSafely_of true.
Proof.
  intros w r.
  exact (proj2 (proj2 (proj2 (useSupabase_first_render w))) r
               {| cell_isInitialized := mkMemo tt true;
                  cell_client := mkMemo true (ClientObject 6);
                  cell_getClientSafely := mkMemo true (getClientSafely_of true) |}
               eq_refl).
Defined.

(** [getClientSafely], whatever it closed over, returns. *)
Lemma getClientSafely_of_returns (initialized : bool) (w : World) :
  getClientSafely_of initialized w
  = (Return (if initialized then client (this w) else None), w).
Proof.
  run_hook. destruct initialized; simpl; [|reflexivity].
  destruct (client (this w)); reflexivity.
Qed.

(** X9.  What a mounted component remembers does not follow the holder.
    After a first render that returned, every later render, in whatever
    world (after [reset], after a failed or a new [initialize]), returns the
    same result and the same memo cells without looking at the holder: the
    [client] of the result is the client of the first render even when the
    holder no longer stores it, [isInitialized] stays true, and no later
    render throws.  Only [getClientSafely] follows the holder: called in a
    world, it returns the client stored there, or null when there is none,
    and never throws. *)
Theorem useSupabase_later_renders (w0 : World) (r : UseSupabaseResult)
    (cells : HookCells) :
  fst (useSupabase None w0) = Return (r, cells) ->
  (forall w, useSupabase (Some cells) w = (Return (r, cells), w)) /\
  (forall w, getClientSafely r w = (Return (client (this w)), w)) /\
  (forall w,
     getClientSafely r (snd (reset w)) = (Return None, snd (reset w)) /\
     fst (useSupabase (Some cells) (snd (reset w))) = Return (r, cells) /\
     result_isInitialized r = true /\
     client (this w0) = Some (result_client r)).
Proof.
  intros H.
  destruct (client (this w0)) as [cl|] eqn:Hc.
  2:{ rewrite (useSupabase_mount_no_client w0 Hc) in H. discriminate. }
  rewrite (useSupabase_mount_client w0 cl Hc) in H. simpl in H.
  injection H as <- <-.
  assert (Hre : forall w,
            useSupabase
              (Some {| cell_isInitialized := mkMemo tt true;
                       cell_client := mkMemo true cl;
                       cell_getClientSafely :=
                         mkMemo true (getClientSafely_of true) |}) w
            = (Return ({| result_client := cl;
                          result_isInitialized := true;
                          getClientSafely := getClientSafely_of true |},
                       {| cell_isInitialized := mkMemo tt true;
                          cell_client := mkMemo true cl;
                          cell_getClientSafely :=
                            mkMemo true (getClientSafely_of true) |}), w)).
  { intros w. reflexivity. }
  split; [exact Hre|]. split.
  { intros w. simpl. apply (getClientSafely_of_returns true). }
  intros w. split.
  { simpl. rewrite (getClientSafely_of_returns true). reflexivity. }
  split; [rewrite Hre; reflexivity|].
  split; reflexivity.
Qed.

(** After [reset] the component still holds the old client, while
    [getClientSafely] answers null. *)
Lemma useSupabase_later_renders_witness :
  let w0 := snd (initialize example_platform
                   (config_of "https://x.supabase.co" "abc123") (start ∅)) in
  let r := {| result_client := ClientObject 6;
              result_isInitialized := true;
              getClientSafely := getClientSafely_of true |} in
  let cells := {| cell_isInitialized := mkMemo tt true;
                  cell_client := mkMemo true (ClientObject 6);
                  cell_getClientSafely := mkMemo true (getClientSafely_of true) |} in
  client (this (snd (reset w0))) = None /\
  fst (useSupabase (Some cells) (snd (reset w0))) = Return (r, cells) /\
  getClientSafely r (snd (reset w0)) = (Return None, snd (reset w0)).
Proof.
  intros w0 r cells.
  pose proof (proj2 (proj2 (useSupabase_later_renders w0 r cells eq_refl)) w0)
    as H.
  exact (conj eq_refl (conj (proj1 (proj2 H)) (proj1 H))).
Defined.
